(** * vision_parse.py: checkpointed extraction of exam questions from a PDF

    A shallow embedding of [src/vision_parse.py] and the properties of its
    three parts: the page rasterizer ([pdf_page_to_base64]), the model client
    ([call_vision_model]) and the checkpointed extraction loop
    ([process_pdf]).

    Conventions of the embedding.
    - A Python [str] is a [string]; each [ascii] stands for the code point of
      the same number, so the model covers the code points below 256.
    - A value produced by [json.load]/[json.loads] is a [json]; a Python
      [dict] is an association list in insertion order with unique keys.
    - An exception is a value of [exn]; code that can raise lives in
      [result], and code that also touches files or prints lives in the
      state-and-exception monad [M], whose state survives a raise.
    - The PDF library, the HTTP service and the JSON parser are parameters
      of a run ([environment], [page], [http_outcome]).
    - The document opens, writing a file succeeds and [time.sleep] leaves no
      trace; a file that was written holds the value that was dumped. *)

From Stdlib Require Import ZArith List String Ascii Bool Lia.
From Stdlib Require Import Floats.SpecFloat.
Import ListNotations.

Local Open Scope string_scope.
Local Open Scope Z_scope.

Set Warnings "-register-all".


(* ===================================================================== *)
(** ** Exceptions and results *)

Inductive exn : Type :=
| TypeError
| KeyError
| IndexError
| AttributeError
| ValueError
| JSONDecodeError      (* json.loads / response.json() on invalid text *)
| ConnectionError      (* requests.post: the request could not be made *)
| HTTPError (status : Z)  (* response.raise_for_status() *)
| RenderError          (* doc[i], get_pixmap or tobytes failed *)
| OSError.             (* open() or read failed *)

(** Every exception above derives from Python's [Exception], so an
    [except Exception] clause catches each of them. *)
Definition is_Exception (e : exn) : bool := true.

Definition is_JSONDecodeError (e : exn) : bool :=
  match e with JSONDecodeError => true | _ => false end.

Inductive result (A : Type) : Type :=
| Ok (a : A)
| Raise (e : exn).
Arguments Ok {A} a.
Arguments Raise {A} e.

Definition rbind {A B} (r : result A) (k : A -> result B) : result B :=
  match r with
  | Ok a => k a
  | Raise e => Raise e
  end.

Declare Scope result_scope.
Delimit Scope result_scope with res.
Notation "x <- r ;; k" := (rbind r (fun x => k))
  (at level 61, r at next level, right associativity) : result_scope.

(* ===================================================================== *)
(** ** Python strings *)

Module PyStr.

(** [s.startswith(p)] *)
Fixpoint startswith (p s : string) : bool :=
  match p with
  | EmptyString => true
  | String a p' =>
      match s with
      | EmptyString => false
      | String b s' => Ascii.eqb a b && startswith p' s'
      end
  end.

(** [s[n:]] *)
Fixpoint drop (n : nat) (s : string) : string :=
  match n with
  | O => s
  | S n' => match s with
            | EmptyString => EmptyString
            | String _ s' => drop n' s'
            end
  end.

(** [sep in s] for two strings: substring test. *)
Fixpoint contains (sep s : string) : bool :=
  startswith sep s ||
  match s with
  | EmptyString => false
  | String _ s' => contains sep s'
  end.

(** The scan behind [s.split(sep)]: [skip] counts the characters of a
    matched separator that are still to be passed over, [cur] is the piece
    being collected.  Matches are taken leftmost and do not overlap. *)
Fixpoint split_scan (sep : string) (skip : nat) (cur s : string)
  : list string :=
  match s with
  | EmptyString => [cur]
  | String c s' =>
      match skip with
      | S k => split_scan sep k cur s'
      | O =>
          if startswith sep s
          then cur :: split_scan sep (String.length sep - 1) EmptyString s'
          else split_scan sep O (cur ++ String c EmptyString) s'
      end
  end.

(** [s.split(sep)]; an empty separator raises [ValueError]. *)
Definition split (sep s : string) : result (list string) :=
  match sep with
  | EmptyString => Raise ValueError
  | _ => Ok (split_scan sep O EmptyString s)
  end.

(** [c.isspace()] on the code points below 256: TAB..CR, FS..US, space,
    NEL and the no-break space. *)
Definition isspace (c : ascii) : bool :=
  let n := N_of_ascii c in
  ((9 <=? n) && (n <=? 13) || (28 <=? n) && (n <=? 32)
   || (n =? 133) || (n =? 160))%N.

Fixpoint lstrip (s : string) : string :=
  match s with
  | EmptyString => EmptyString
  | String c s' => if isspace c then lstrip s' else s
  end.

Fixpoint rstrip (s : string) : string :=
  match s with
  | EmptyString => EmptyString
  | String c s' =>
      match rstrip s' with
      | EmptyString => if isspace c then EmptyString else String c EmptyString
      | r => String c r
      end
  end.

(** [s.strip()] *)
Definition strip (s : string) : string := lstrip (rstrip s).

(** The first occurrence of [sep] in [s]: the text before it and the text
    after it.  Used to state what [split] computes. *)
Fixpoint find_first (sep s : string) : option (string * string) :=
  if startswith sep s then Some (EmptyString, drop (String.length sep) s)
  else match s with
       | EmptyString => None
       | String c s' =>
           match find_first sep s' with
           | Some (a, b) => Some (String c a, b)
           | None => None
           end
       end.

(** The text of [s] before the first [sep], all of [s] when there is none. *)
Definition upto (sep s : string) : string :=
  match find_first sep s with
  | Some (a, _) => a
  | None => s
  end.

(** Every character of [s] is white space. *)
Fixpoint all_space (s : string) : bool :=
  match s with
  | EmptyString => true
  | String c s' => isspace c && all_space s'
  end.

Definition first_char (s : string) : option ascii :=
  match s with
  | EmptyString => None
  | String c _ => Some c
  end.

Fixpoint last_char (s : string) : option ascii :=
  match s with
  | EmptyString => None
  | String c s' =>
      match s' with
      | EmptyString => Some c
      | _ => last_char s'
      end
  end.

(** [s] neither starts nor ends with white space. *)
Definition trimmed (s : string) : Prop :=
  (forall c, first_char s = Some c -> isspace c = false)
  /\ (forall c, last_char s = Some c -> isspace c = false).

End PyStr.

(* ===================================================================== *)
(** ** Python values read from JSON *)

(** What [json.load] builds: [None], [bool], [int], [float], [str], [list]
    and [dict] with string keys. *)
Inductive json : Type :=
| JNull
| JBool (b : bool)
| JInt (n : Z)
| JFloat (f : spec_float)
| JStr (s : string)
| JList (l : list json)
| JDict (d : list (string * json)).

Definition dict : Type := list (string * json).

(** [d.get(k)] as an option; [k in d] is [dict_mem]. *)
Fixpoint dict_get (k : string) (d : dict) : option json :=
  match d with
  | [] => None
  | (k', v) :: d' => if String.eqb k' k then Some v else dict_get k d'
  end.

Definition dict_mem (k : string) (d : dict) : bool :=
  match dict_get k d with Some _ => true | None => false end.

(** [d[k] = v]: an existing key keeps its place, a new key goes last. *)
Fixpoint dict_set (k : string) (v : json) (d : dict) : dict :=
  match d with
  | [] => [(k, v)]
  | (k', v') :: d' =>
      if String.eqb k' k then (k, v) :: d' else (k', v') :: dict_set k v d'
  end.

Definition float_is_zero (f : spec_float) : bool :=
  match f with S754_zero _ => true | _ => false end.

(** [bool(v)] *)
Definition truthy (v : json) : bool :=
  match v with
  | JNull => false
  | JBool b => b
  | JInt n => negb (n =? 0)
  | JFloat f => negb (float_is_zero f)
  | JStr s => match s with EmptyString => false | _ => true end
  | JList l => match l with [] => false | _ => true end
  | JDict d => match d with [] => false | _ => true end
  end.

Definition is_str (s : string) (v : json) : bool :=
  match v with JStr s' => String.eqb s' s | _ => false end.

(** [needle in v] for a string [needle]. *)
Definition py_in (needle : string) (v : json) : result bool :=
  match v with
  | JDict d => Ok (dict_mem needle d)
  | JList l => Ok (existsb (is_str needle) l)
  | JStr s => Ok (PyStr.contains needle s)
  | _ => Raise TypeError
  end.

(** [v[key]] for a string [key]. *)
Definition getitem_key (v : json) (key : string) : result json :=
  match v with
  | JDict d => match dict_get key d with
               | Some x => Ok x
               | None => Raise KeyError
               end
  | _ => Raise TypeError
  end.

(** [v[0]] *)
Definition getitem_0 (v : json) : result json :=
  match v with
  | JList l => match l with
               | x :: _ => Ok x
               | [] => Raise IndexError
               end
  | JStr s => match s with
              | String c _ => Ok (JStr (String c EmptyString))
              | EmptyString => Raise IndexError
              end
  | JDict _ => Raise KeyError
  | _ => Raise TypeError
  end.

(** [l[n]] on a Python list of strings. *)
Definition list_index {A} (l : list A) (n : nat) : result A :=
  match nth_error l n with
  | Some x => Ok x
  | None => Raise IndexError
  end.

(** [v.split(sep)]: only [str] has the method. *)
Definition split_method (v : json) (sep : string) : result (list string) :=
  match v with
  | JStr s => PyStr.split sep s
  | _ => Raise AttributeError
  end.

(** [len(v)] *)
Definition py_len (v : json) : result Z :=
  match v with
  | JStr s => Ok (Z.of_nat (String.length s))
  | JList l => Ok (Z.of_nat (List.length l))
  | JDict d => Ok (Z.of_nat (List.length d))
  | _ => Raise TypeError
  end.

Fixpoint chars (s : string) : list json :=
  match s with
  | EmptyString => []
  | String c s' => JStr (String c EmptyString) :: chars s'
  end.

(** [iter(v)] run to the end: the elements of a list, the keys of a dict,
    the characters of a string. *)
Definition py_iter (v : json) : result (list json) :=
  match v with
  | JList l => Ok l
  | JDict d => Ok (map (fun kv => JStr (fst kv)) d)
  | JStr s => Ok (chars s)
  | _ => Raise TypeError
  end.

(** [target.extend(v)]: the list after the call.  Only [list] has the
    method. *)
Definition py_extend (target v : json) : result json :=
  match target with
  | JList l => (xs <- py_iter v ;; Ok (JList (l ++ xs)))%res
  | _ => Raise AttributeError
  end.

(** Whether [v + 1] evaluates: numbers do, the other values raise
    [TypeError]. *)
Definition can_add_one (v : json) : bool :=
  match v with
  | JBool _ | JInt _ | JFloat _ => true
  | _ => false
  end.

(** [range(v, n)] takes its start through [__index__]: an [int], or a
    [bool] as 0 or 1. *)
Definition as_index (v : json) : result Z :=
  match v with
  | JInt n => Ok n
  | JBool b => Ok (if b then 1 else 0)
  | _ => Raise TypeError
  end.

(** [list(range(a, b))] *)
Definition py_range (a b : Z) : list Z :=
  map (fun k => a + Z.of_nat k) (seq 0 (Z.to_nat (b - a))).

(* ===================================================================== *)
(** ** Page Rasterizer (lines 14-18) *)

(** [base64.b64encode]: the standard alphabet with [=] padding. *)
Module Base64.

Definition digit (n : N) : ascii :=
  if (n <? 26)%N then ascii_of_N (65 + n)
  else if (n <? 52)%N then ascii_of_N (97 + (n - 26))
  else if (n <? 62)%N then ascii_of_N (48 + (n - 52))
  else if (n =? 62)%N then "+"%char
  else "/"%char.

Definition sextet (n : N) (k : N) : ascii :=
  digit ((n / 64 ^ k) mod 64)%N.

Fixpoint b64encode (bs : list Byte.byte) : string :=
  match bs with
  | [] => EmptyString
  | [a] =>
      let n := (Byte.to_N a * 65536)%N in
      String (sextet n 3) (String (sextet n 2) "==")
  | [a; b] =>
      let n := (Byte.to_N a * 65536 + Byte.to_N b * 256)%N in
      String (sextet n 3) (String (sextet n 2) (String (sextet n 1) "="))
  | a :: b :: c :: rest =>
      let n := (Byte.to_N a * 65536 + Byte.to_N b * 256 + Byte.to_N c)%N in
      String (sextet n 3) (String (sextet n 2)
        (String (sextet n 1) (String (sextet n 0) (b64encode rest))))
  end.

End Base64.

(** A pixmap of PyMuPDF: [tobytes("png")] gives the PNG bytes or raises. *)
Record pixmap : Type := { tobytes_png : result (list Byte.byte) }.

(** A page of PyMuPDF: [get_pixmap(matrix=fitz.Matrix(sx, sy))] renders the
    page at the given scale or raises. *)
Record page : Type := { get_pixmap : Z -> Z -> result pixmap }.

(** [pdf_page_to_base64(page)]: no [try] around the rendering. *)
Definition pdf_page_to_base64 (pg : page) : result string :=
  (pix <- get_pixmap pg 2 2 ;;
   img_data <- tobytes_png pix ;;
   Ok (Base64.b64encode img_data))%res.

(* ===================================================================== *)
(** ** The world of a run: files, console, network *)

(** A file on disk: absent, present but failing in [open] or [json.load]
    with the given exception, or holding the text [json.dump] writes for a
    value. *)
Inductive file : Type :=
| Missing
| Unreadable (e : exn)
| Holds (j : json).

(** The lines the program prints. *)
Inductive line : Type :=
| Resuming (last_page : json)      (* "Resuming from page {last_page + 1}" *)
| LegacyFound                      (* "Legacy checkpoint found, ..." *)
| ErrorLoading (e : exn)           (* "Error loading checkpoint: ..." *)
| Processing (page_num total : Z)  (* "Processing page {page_num}/{total}..." *)
| Found (n : Z)                    (* "  Found {n} questions." *)
| NoneFound (page_num : Z)         (* "  No questions found on page ..." *)
| ErrorCalling (e : exn)           (* "Error calling vision model: ..." *)
| Finished (n : Z).                (* "Finished. Total questions ..." *)

Record world : Type := mkWorld {
  checkpoint_file : file;       (* output_path + ".checkpoint" *)
  output_file : file;           (* output_path *)
  console : list line;          (* printed so far, oldest first *)
  sent : list string            (* images posted so far, oldest first *)
}.

(** What one [requests.post] followed by [raise_for_status()] and
    [response.json()] can come to. *)
Inductive http_outcome : Type :=
| PostFails                 (* requests.post raises *)
| StatusFails (status : Z)  (* raise_for_status() raises *)
| BodyFails                 (* response.json() raises *)
| Envelope (j : json).      (* response.json() returns j *)

(** The libraries and services the program runs against.  [post k img] is
    the outcome of the request number [k] (from 0) carrying image [img];
    [json_loads s] is [json.loads(s)], [None] for a [JSONDecodeError]. *)
Record environment : Type := {
  total_pages : Z;                           (* len(doc) *)
  load_page : Z -> result page;              (* doc[i] *)
  post : nat -> string -> http_outcome;
  json_loads : string -> option json
}.

(** State and exceptions: the world is kept when a computation raises. *)
Definition M (A : Type) : Type := world -> result A * world.

Definition ret {A} (a : A) : M A := fun w => (Ok a, w).

Definition bind {A B} (m : M A) (k : A -> M B) : M B :=
  fun w => match m w with
           | (Ok a, w') => k a w'
           | (Raise e, w') => (Raise e, w')
           end.

Definition lift {A} (r : result A) : M A := fun w => (r, w).

Declare Scope M_scope.
Delimit Scope M_scope with M.
Notation "x <- m ;; k" := (bind m (fun x => k))
  (at level 61, m at next level, right associativity) : M_scope.
Notation "m ;;; k" := (bind m (fun _ => k))
  (at level 61, right associativity) : M_scope.

Definition say (l : line) (w : world) : world :=
  mkWorld (checkpoint_file w) (output_file w) (console w ++ [l]) (sent w).

Definition print (l : line) : M unit := fun w => (Ok tt, say l w).

Definition set_checkpoint (f : file) (w : world) : world :=
  mkWorld f (output_file w) (console w) (sent w).

Definition set_output (f : file) (w : world) : world :=
  mkWorld (checkpoint_file w) f (console w) (sent w).

Definition record_sent (img : string) (w : world) : world :=
  mkWorld (checkpoint_file w) (output_file w) (console w) (sent w ++ [img]).

(** [open(path, "w")] leaves an empty file, which no longer parses. *)
Definition truncated : file := Unreadable JSONDecodeError.

(* ===================================================================== *)
(** ** Model Client (lines 20-79) *)

(** Lines 68-71: strip a Markdown fence from the content. *)
Definition clean_content (content : json) : result json :=
  (labeled <- py_in "```json" content ;;
   if labeled : bool then
     parts <- split_method content "```json" ;;
     inner <- list_index parts 1 ;;
     pieces <- PyStr.split "```" inner ;;
     body <- list_index pieces 0 ;;
     Ok (JStr (PyStr.strip body))
   else
     fenced <- py_in "```" content ;;
     if fenced : bool then
       parts <- split_method content "```" ;;
       inner <- list_index parts 1 ;;
       pieces <- PyStr.split "```" inner ;;
       body <- list_index pieces 0 ;;
       Ok (JStr (PyStr.strip body))
     else Ok content)%res.

(** [json.loads(content)]: a [str] is parsed, other values are a
    [TypeError]. *)
Definition py_json_loads (loads : string -> option json) (content : json)
  : result json :=
  match content with
  | JStr s => match loads s with
              | Some v => Ok v
              | None => Raise JSONDecodeError
              end
  | _ => Raise TypeError
  end.

(** Lines 62-76, from the envelope to the returned value. *)
Definition read_envelope (loads : string -> option json) (envelope : json)
  : result json :=
  (has <- py_in "choices" envelope ;;
   if negb has then Ok (JList [])
   else
     choices <- getitem_key envelope "choices" ;;
     if negb (truthy choices) then Ok (JList [])
     else
       first <- getitem_0 choices ;;
       message <- getitem_key first "message" ;;
       content <- getitem_key message "content" ;;
       content <- clean_content content ;;
       match py_json_loads loads content with
       | Ok v => Ok v
       | Raise e => if is_JSONDecodeError e then Ok (JList []) else Raise e
       end)%res.

(** Lines 58-76: the body of the outer [try]. *)
Definition try_body (loads : string -> option json) (o : http_outcome)
  : result json :=
  match o with
  | PostFails => Raise ConnectionError
  | StatusFails status => Raise (HTTPError status)
  | BodyFails => Raise JSONDecodeError
  | Envelope j => read_envelope loads j
  end.

(** [call_vision_model(base64_image)] *)
Definition call_vision_model (env : environment) (base64_image : string)
  : M json :=
  fun w =>
    let o := post env (List.length (sent w)) base64_image in
    let w1 := record_sent base64_image w in
    match try_body (json_loads env) o with
    | Ok v => (Ok v, w1)
    | Raise e =>
        if is_Exception e
        then (Ok (JList []), say (ErrorCalling e) w1)
        else (Raise e, w1)
    end.

(** Line 65 on its own: [result['choices'][0]['message']['content']] of an
    envelope whose [choices] is present and not empty. *)
Definition content_of (envelope : json) : option json :=
  match getitem_key envelope "choices" with
  | Ok choices =>
      if truthy choices then
        match (first <- getitem_0 choices ;;
               message <- getitem_key first "message" ;;
               getitem_key message "content")%res with
        | Ok content => Some content
        | Raise _ => None
        end
      else None
  | Raise _ => None
  end.

(** What lines 73-76 return for the text [text]. *)
Definition parse_or_empty (loads : string -> option json) (text : string)
  : json :=
  match loads text with
  | Some v => v
  | None => JList []
  end.

(** The envelope is a mapping whose [choices] is absent or empty (falsy). *)
Definition no_choices (envelope : json) : bool :=
  match envelope with
  | JDict d => match dict_get "choices" d with
               | None => true
               | Some choices => negb (truthy choices)
               end
  | _ => false
  end.

(** The content is a string that is not valid JSON after fence stripping. *)
Definition unparsable (loads : string -> option json) (envelope : json)
  : bool :=
  match content_of envelope with
  | Some content =>
      match clean_content content with
      | Ok (JStr text) => match loads text with
                          | None => true
                          | Some _ => false
                          end
      | _ => false
      end
  | None => false
  end.

(** The failures of the HTTP call: no response, an error status, a body
    that is not JSON, no choices, content that does not parse. *)
Definition failed (loads : string -> option json) (o : http_outcome) : bool :=
  match o with
  | PostFails | StatusFails _ | BodyFails => true
  | Envelope j => no_choices j || unparsable loads j
  end.

(* ===================================================================== *)
(** ** Checkpointed Extraction Loop (lines 81-131) *)

Local Open Scope M_scope.

(** [d[k]] on the dict [data]. *)
Definition dict_lookup (k : string) (d : dict) : result json :=
  match dict_get k d with
  | Some v => Ok v
  | None => Raise KeyError
  end.

(** Line 86 *)
Definition fresh_data (start_page : Z) : dict :=
  [("last_page", JInt (start_page - 1)); ("questions", JList [])].

(** Lines 86-102.  The assignment [data = loaded_data] of line 94 is kept
    when the [print] of line 95 raises: the handler of line 101 only
    prints. *)
Definition load_checkpoint (start_page : Z) : M dict :=
  fun w =>
    let data := fresh_data start_page in
    match checkpoint_file w with
    | Missing => (Ok data, w)
    | Unreadable e => (Ok data, say (ErrorLoading e) w)
    | Holds loaded_data =>
        match loaded_data with
        | JDict d =>
            if dict_mem "last_page" d then
              match dict_lookup "last_page" d with
              | Ok v =>
                  if can_add_one v
                  then (Ok d, say (Resuming v) w)
                  else (Ok d, say (ErrorLoading TypeError) w)
              | Raise e => (Ok d, say (ErrorLoading e) w)
              end
            else (Ok data, w)
        | JList _ =>
            let data := dict_set "questions" loaded_data data in
            let data := dict_set "last_page" (JInt (start_page - 1)) data in
            (Ok data, say LegacyFound w)
        | _ => (Ok data, w)
        end
    end.

(** Lines 121-122: the checkpoint file is opened for writing and the whole
    of [data] is dumped into it. *)
Definition write_checkpoint (data : dict) : M unit :=
  fun w => (Ok tt, set_checkpoint (Holds (JDict data)) w).

(** Lines 106-125: the loop body for page index [i]. *)
Definition page_step (env : environment) (i : Z) (data : dict) : M dict :=
  let page_num := i + 1 in
  print (Processing page_num (total_pages env)) ;;;
  pg <- lift (load_page env i) ;;
  base64_img <- lift (pdf_page_to_base64 pg) ;;
  questions <- call_vision_model env base64_img ;;
  data <- (if truthy questions then
             n <- lift (py_len questions) ;;
             print (Found n) ;;;
             target <- lift (dict_lookup "questions" data) ;;
             target <- lift (py_extend target questions) ;;
             ret (dict_set "questions" target data)
           else
             print (NoneFound page_num) ;;;
             ret data) ;;
  let data := dict_set "last_page" (JInt (i + 1)) data in
  write_checkpoint data ;;;
  ret data.

(** Line 105: the [for] loop over the page indexes. *)
Fixpoint run_pages (env : environment) (pages : list Z) (data : dict)
  : M dict :=
  match pages with
  | [] => ret data
  | i :: rest => data <- page_step env i data ;; run_pages env rest data
  end.

(** Lines 128-131: the output file is opened (and emptied) before
    [data["questions"]] is evaluated. *)
Definition final_save (data : dict) : M unit :=
  (fun w => (Ok tt, set_output truncated w)) ;;;
  questions <- lift (dict_lookup "questions" data) ;;
  (fun w => (Ok tt, set_output (Holds questions) w)) ;;;
  n <- lift (py_len questions) ;;
  print (Finished n).

(** [process_pdf(pdf_path, output_path, start_page)], once the document is
    open. *)
Definition process_pdf (env : environment) (start_page : Z) : M unit :=
  data <- load_checkpoint start_page ;;
  last_page <- lift (dict_lookup "last_page" data) ;;
  first <- lift (as_index last_page) ;;
  data <- run_pages env (py_range first (total_pages env)) data ;;
  final_save data.

(** *** The environment seen page by page *)

(** Lines 108-110 for page index [i]: the image, or what is raised. *)
Definition page_image (env : environment) (i : Z) : result string :=
  (pg <- load_page env i ;; pdf_page_to_base64 pg)%res.

(** What the model client returns for request number [k] with image
    [img]. *)
Definition answer (env : environment) (k : nat) (img : string) : json :=
  match try_body (json_loads env) (post env k img) with
  | Ok v => v
  | Raise _ => JList []
  end.

(** What lines 113-117 add to the questions for a returned value: nothing
    for a falsy value, else its [len] is taken and it is iterated. *)
Definition items (v : json) : result (list json) :=
  if truthy v then (_ <- py_len v ;; py_iter v)%res else Ok [].

(** Image and added questions of every page of [pages], the first page
    sending request number [k]; [Raise] when some page cannot be rendered or
    its answer cannot be added. *)
Fixpoint yields (env : environment) (k : nat) (pages : list Z)
  : result (list (string * list json)) :=
  match pages with
  | [] => Ok []
  | i :: rest =>
      (img <- page_image env i ;;
       xs <- items (answer env k img) ;;
       more <- yields env (S k) rest ;;
       Ok ((img, xs) :: more))%res
  end.

Definition is_list (j : json) : bool :=
  match j with JList _ => true | _ => false end.

Definition is_dict_with (k : string) (j : json) : bool :=
  match j with JDict d => dict_mem k d | _ => false end.

(** Lines 133-139: the entry point calls [process_pdf] with
    [start_page=19]. *)
Definition main (env : environment) : M unit := process_pdf env 19.

(** *** Notions used to state further properties *)

(** [sep.join(parts)] *)
Fixpoint join (sep : string) (parts : list string) : string :=
  match parts with
  | [] => EmptyString
  | p :: rest =>
      match rest with
      | [] => p
      | _ => (p ++ sep ++ join sep rest)%string
      end
  end.

(** The characters a base64 text is made of: the alphabet and the padding
    sign. *)
Definition base64_char (c : ascii) : bool :=
  let n := N_of_ascii c in
  ((65 <=? n) && (n <=? 90) || (97 <=? n) && (n <=? 122)
   || (48 <=? n) && (n <=? 57) || (n =? 43) || (n =? 47) || (n =? 61))%N.

Fixpoint all_chars (p : ascii -> bool) (s : string) : bool :=
  match s with
  | EmptyString => true
  | String c s' => p c && all_chars p s'
  end.

(** What of the world outlives the console: the two files and the requests
    made. *)
Definition durable (w : world) : file * file * list string :=
  (checkpoint_file w, output_file w, sent w).

(* ===================================================================== *)
(** ** Sample documents and services *)

Module Sample.

Definition quote : string := String (ascii_of_nat 34) EmptyString.

(** The text [{"a": 1}]. *)
Definition object_text : string := "{" ++ quote ++ "a" ++ quote ++ ": 1}".

(** A parser that knows a handful of JSON texts. *)
Definition loads (s : string) : option json :=
  if String.eqb s "[]" then Some (JList [])
  else if String.eqb s "[1]" then Some (JList [JInt 1])
  else if String.eqb s "[1, 2]" then Some (JList [JInt 1; JInt 2])
  else if String.eqb s "5" then Some (JInt 5)
  else if String.eqb s object_text then Some (JDict [("a", JInt 1)])
  else None.

(** A chat-completions envelope whose first choice carries [content]. *)
Definition reply (content : string) : json :=
  JDict [("id", JStr "gen-1");
         ("choices",
          JList [JDict [("index", JInt 0);
                        ("message", JDict [("role", JStr "assistant");
                                           ("content", JStr content)])]])].

Definition png : list Byte.byte := [Byte.x89; Byte.x50; Byte.x4e; Byte.x47].

Definition good_page : page :=
  {| get_pixmap := fun _ _ => Ok {| tobytes_png := Ok png |} |}.

Definition bad_page : page :=
  {| get_pixmap := fun _ _ => Raise RenderError |}.

Definition fenced : string := "```json
[1, 2]
```".

(** Five pages; the third request meets a network error, the others are
    answered with two questions in a labeled fence. *)
Definition five_pages : environment :=
  {| total_pages := 5;
     load_page := fun i => if i <? 5 then Ok good_page else Raise IndexError;
     post := fun k _ => if Nat.eqb k 2 then PostFails
                        else Envelope (reply fenced);
     json_loads := loads |}.

(** Three pages, the second of which cannot be rendered. *)
Definition torn : environment :=
  {| total_pages := 3;
     load_page := fun i => if i =? 1 then Ok bad_page
                           else if i <? 3 then Ok good_page
                           else Raise IndexError;
     post := fun _ _ => Envelope (reply "[1]");
     json_loads := loads |}.

(** One page, answered with a JSON object instead of an array. *)
Definition object_reply : environment :=
  {| total_pages := 1;
     load_page := fun i => if i <? 1 then Ok good_page else Raise IndexError;
     post := fun _ _ => Envelope (reply object_text);
     json_loads := loads |}.

(** No files, nothing printed, nothing sent. *)
Definition blank : world := mkWorld Missing Missing [] [].

Definition with_checkpoint (j : json) : world :=
  mkWorld (Holds j) Missing [] [].

(** One page, answered with [null] for content. *)
Definition null_reply : environment :=
  {| total_pages := 1;
     load_page := fun i => if i <? 1 then Ok good_page else Raise IndexError;
     post := fun _ _ =>
       Envelope
         (JDict [("choices",
                  JList [JDict [("message",
                                 JDict [("content", JNull)])]])]);
     json_loads := loads |}.

(** A checkpoint with a field of its own besides the two of the program. *)
Definition tagged : dict :=
  [("model", JStr "m"); ("last_page", JInt 0); ("questions", JList [JInt 7])].

End Sample.

(* ===================================================================== *)
(** * Properties *)

(** ** Strings: prefixes, occurrences and [split] *)

Module PyStrFacts.
Import PyStr.

Lemma app_assoc (a b c : string) : (a ++ b) ++ c = a ++ b ++ c.
Proof. induction a as [|x a IH]; simpl; [reflexivity | now rewrite IH]. Qed.

Lemma app_nil_r (a : string) : a ++ "" = a.
Proof. induction a as [|x a IH]; simpl; [reflexivity | now rewrite IH]. Qed.

Lemma length_app (a b : string) :
  String.length (a ++ b) = (String.length a + String.length b)%nat.
Proof. induction a as [|x a IH]; simpl; [reflexivity | now rewrite IH]. Qed.

Lemma startswith_iff (p s : string) :
  startswith p s = true <-> exists r, s = p ++ r.
Proof.
  revert s; induction p as [|a p IH]; intros s; simpl.
  - split; [intros _; now exists s | reflexivity].
  - destruct s as [|b s].
    + split; [discriminate | intros [r Hr]; discriminate].
    + rewrite andb_true_iff, Ascii.eqb_eq, IH. split.
      * intros [-> [r ->]]. now exists r.
      * intros [r Hr]. injection Hr as -> ->. split; [reflexivity | now exists r].
Qed.

Lemma startswith_app_l (p x r : string) :
  startswith p x = true -> startswith p (x ++ r) = true.
Proof.
  rewrite !startswith_iff. intros [q ->]. exists (q ++ r). apply app_assoc.
Qed.

Lemma startswith_short (p x r : string) :
  (String.length p <= String.length x)%nat ->
  startswith p (x ++ r) = true -> startswith p x = true.
Proof.
  revert x; induction p as [|a p IH]; intros x Hlen; simpl; [reflexivity|].
  destruct x as [|b x]; simpl in *; [lia|].
  rewrite !andb_true_iff. intros [Hab H]. split; [exact Hab|].
  apply IH; [lia | exact H].
Qed.

Lemma startswith_weaken (p k s : string) :
  startswith (p ++ k) s = true -> startswith p s = true.
Proof.
  rewrite !startswith_iff. intros [r ->]. exists (k ++ r). apply app_assoc.
Qed.

Lemma startswith_self (p r : string) : startswith p (p ++ r) = true.
Proof. apply startswith_iff. now exists r. Qed.

Lemma drop_app_length (p r : string) : drop (String.length p) (p ++ r) = r.
Proof. induction p as [|a p IH]; simpl; [reflexivity | exact IH]. Qed.

Lemma contains_iff (sep s : string) :
  contains sep s = true <-> exists a b, s = a ++ sep ++ b.
Proof.
  induction s as [|c s IH]; simpl.
  - rewrite orb_false_r, startswith_iff. split.
    + intros [r Hr]. now exists "", r.
    + intros [a [b Hab]]. destruct a; simpl in Hab; [now exists b | discriminate].
  - rewrite orb_true_iff, startswith_iff, IH. split.
    + intros [[r Hr] | [a [b Hab]]].
      * now exists "", r.
      * exists (String c a), b. simpl. now rewrite Hab.
    + intros [a [b Hab]]. destruct a as [|x a]; simpl in Hab.
      * left. now exists b.
      * right. injection Hab as _ ->. now exists a, b.
Qed.

Lemma contains_weaken (p k s : string) :
  contains p s = false -> contains (p ++ k) s = false.
Proof.
  intros H. destruct (contains (p ++ k) s) eqn:E; [|reflexivity].
  apply contains_iff in E. destruct E as [a [b ->]].
  assert (contains p (a ++ (p ++ k) ++ b) = true) as H'.
  { apply contains_iff. exists a, (k ++ b). now rewrite app_assoc. }
  congruence.
Qed.

Lemma find_first_sound (sep s a b : string) :
  find_first sep s = Some (a, b) -> s = a ++ sep ++ b.
Proof.
  revert a b; induction s as [|c s IH]; intros a b; simpl.
  - destruct (startswith sep "") eqn:E; [|discriminate].
    intros H; injection H as <- <-. apply startswith_iff in E.
    destruct E as [r Hr]. destruct sep; [reflexivity | discriminate].
  - destruct (startswith sep (String c s)) eqn:E.
    + intros H; injection H as <- <-. apply startswith_iff in E.
      destruct E as [r Hr]. rewrite Hr. simpl.
      now rewrite drop_app_length.
    + destruct (find_first sep s) as [[a' b']|]; [|discriminate].
      intros H; injection H as <- <-. simpl. f_equal. now apply IH.
Qed.

Lemma find_first_none (sep s : string) :
  find_first sep s = None <-> contains sep s = false.
Proof.
  induction s as [|c s IH]; simpl.
  - destruct (startswith sep ""); simpl; split; congruence.
  - destruct (startswith sep (String c s)); simpl.
    + split; congruence.
    + rewrite <- IH. destruct (find_first sep s) as [[a b]|]; split; congruence.
Qed.

Lemma find_first_some (sep s : string) :
  contains sep s = true -> exists a b, find_first sep s = Some (a, b).
Proof.
  intros H. destruct (find_first sep s) as [[a b]|] eqn:E; [now exists a, b|].
  apply find_first_none in E. congruence.
Qed.

Lemma find_first_eq (sep s : string) :
  find_first sep s =
  if startswith sep s then Some ("", drop (String.length sep) s)
  else match s with
       | "" => None
       | String c s' =>
           match find_first sep s' with
           | Some (a, b) => Some (String c a, b)
           | None => None
           end
       end.
Proof. destruct s; reflexivity. Qed.

(** The occurrence of [sep] that follows [a] is the first one when no
    occurrence starts inside [a]: none lies in [a] followed by all but the
    last character of [sep]. *)
Lemma find_first_at (sep0 : string) (c : ascii) (a b : string) :
  let sep := sep0 ++ String c "" in
  contains sep (a ++ sep0) = false ->
  find_first sep (a ++ sep ++ b) = Some (a, b).
Proof.
  intros sep. induction a as [|x a IH]; intros H.
  - simpl (_ ++ _). rewrite find_first_eq, startswith_self.
    now rewrite drop_app_length.
  - simpl in H. apply orb_false_iff in H. destruct H as [H1 H2].
    simpl (_ ++ _). simpl find_first.
    assert (startswith sep (String x (a ++ sep ++ b)) = false) as Hs.
    { destruct (startswith sep (String x (a ++ sep ++ b))) eqn:E;
        [|reflexivity].
      assert (String x (a ++ sep ++ b)
              = String x (a ++ sep0) ++ (String c "" ++ b)) as Hsplit.
      { simpl. f_equal. unfold sep. now rewrite !app_assoc. }
      rewrite Hsplit in E. apply startswith_short in E; [congruence|].
      unfold sep. simpl. rewrite !length_app. simpl. lia. }
    rewrite Hs. unfold sep in IH |- *. now rewrite (IH H2).
Qed.

Lemma upto_prefix (sep s : string) : exists r, s = upto sep s ++ r.
Proof.
  unfold upto. destruct (find_first sep s) as [[a b]|] eqn:E.
  - exists (sep ++ b). now apply find_first_sound.
  - exists "". now rewrite app_nil_r.
Qed.

Lemma upto_none (sep s : string) : contains sep s = false -> upto sep s = s.
Proof.
  intros H. apply find_first_none in H. unfold upto. now rewrite H.
Qed.

Lemma upto_cons (sep : string) (c : ascii) (s : string) :
  startswith sep (String c s) = false ->
  upto sep (String c s) = String c (upto sep s).
Proof.
  intros H. unfold upto. simpl find_first. rewrite H.
  now destruct (find_first sep s) as [[a b]|].
Qed.

Lemma upto_here (sep r : string) : upto sep (sep ++ r) = "".
Proof. unfold upto. now rewrite find_first_eq, startswith_self. Qed.

Lemma contains_upto (sep s : string) :
  sep <> "" -> contains sep (upto sep s) = false.
Proof.
  intros Hsep. induction s as [|c s IH].
  - unfold upto. simpl. destruct sep; [congruence | reflexivity].
  - destruct (startswith sep (String c s)) eqn:E.
    + unfold upto. simpl find_first. rewrite E.
      destruct sep; [congruence | reflexivity].
    + rewrite (upto_cons _ _ _ E). simpl. rewrite IH, orb_false_r.
      destruct (startswith sep (String c (upto sep s))) eqn:E'; [|reflexivity].
      destruct (upto_prefix sep s) as [r Hr].
      apply (startswith_app_l _ _ r) in E'. simpl in E'. rewrite <- Hr in E'.
      congruence.
Qed.

Lemma split_scan_skip (sep : string) (k : nat) (cur s : string) :
  split_scan sep k cur s = split_scan sep 0 cur (drop k s).
Proof.
  revert k; induction s as [|c s IH]; intros k.
  - now destruct k.
  - destruct k; [reflexivity|]. simpl. apply IH.
Qed.

(** [split] cuts at the first occurrence and goes on in what follows it. *)
Lemma split_scan_unfold (sep cur s : string) :
  sep <> "" ->
  split_scan sep 0 cur s =
  match find_first sep s with
  | None => [cur ++ s]
  | Some (a, b) => (cur ++ a) :: split_scan sep 0 "" b
  end.
Proof.
  intros Hsep. revert cur; induction s as [|c s IH]; intros cur.
  - simpl. destruct sep; [congruence|]. simpl. now rewrite app_nil_r.
  - simpl. destruct (startswith sep (String c s)) eqn:E.
    + rewrite app_nil_r, split_scan_skip. f_equal. f_equal.
      destruct sep; [congruence|]. simpl. now rewrite Nat.sub_0_r.
    + rewrite IH. destruct (find_first sep s) as [[a b]|];
        now rewrite app_assoc.
Qed.

Lemma split_first (sep s : string) :
  sep <> "" ->
  exists rest, split sep s = Ok (upto sep s :: rest).
Proof.
  intros Hsep. unfold split, upto. destruct sep as [|x sep]; [congruence|].
  rewrite split_scan_unfold by congruence.
  destruct (find_first _ s) as [[a b]|]; eexists; reflexivity.
Qed.

Lemma split_second (sep s a b : string) :
  sep <> "" ->
  find_first sep s = Some (a, b) ->
  exists rest, split sep s = Ok (a :: upto sep b :: rest).
Proof.
  intros Hsep E. unfold split, upto. destruct sep as [|x sep]; [congruence|].
  rewrite split_scan_unfold, E by congruence.
  rewrite (split_scan_unfold _ "" b) by congruence.
  destruct (find_first _ b) as [[a' b']|]; eexists; reflexivity.
Qed.

Lemma rstrip_spec (s : string) :
  exists r, s = rstrip s ++ r /\ all_space r = true
            /\ (forall c, last_char (rstrip s) = Some c -> isspace c = false).
Proof.
  induction s as [|c s [r [Hs [Hr Hlast]]]].
  - exists "". repeat split. discriminate.
  - simpl rstrip. destruct (rstrip s) as [|x t] eqn:E.
    + destruct (isspace c) eqn:Hc.
      * exists (String c r). simpl in Hs. subst r. simpl. rewrite Hc.
        repeat split; [exact Hr | discriminate].
      * exists r. simpl in *. subst r. repeat split; [exact Hr|].
        intros c' H. now injection H as <-.
    + exists r. split; [|split; [exact Hr|]].
      * simpl. now rewrite Hs at 1.
      * intros c' H. apply Hlast. exact H.
Qed.

Lemma lstrip_spec (s : string) :
  exists l, s = l ++ lstrip s /\ all_space l = true
            /\ (forall c, first_char (lstrip s) = Some c -> isspace c = false)
            /\ (lstrip s <> "" -> last_char (lstrip s) = last_char s).
Proof.
  induction s as [|c s [l [Hs [Hl [Hfirst Hlast]]]]].
  - exists "". repeat split. discriminate.
  - simpl lstrip. destruct (isspace c) eqn:Hc.
    + exists (String c l). simpl. rewrite Hc.
      split; [now rewrite Hs at 1|]. split; [exact Hl|].
      split; [exact Hfirst|]. intros Hne. rewrite (Hlast Hne).
      destruct s; [|reflexivity]. simpl in Hne. congruence.
    + exists "". repeat split. intros c' H. simpl in H. now injection H as <-.
Qed.

(** [strip] removes white space, and only white space, at both ends. *)
Lemma strip_spec (s : string) :
  exists l r, s = l ++ strip s ++ r
              /\ all_space l = true /\ all_space r = true
              /\ trimmed (strip s).
Proof.
  unfold strip, trimmed.
  destruct (rstrip_spec s) as [r [Hs [Hr Hlast]]].
  destruct (lstrip_spec (rstrip s)) as [l [Hs' [Hl [Hfirst Hlast']]]].
  exists l, r. split.
  { rewrite Hs at 1. rewrite Hs' at 1. apply app_assoc. }
  split; [exact Hl|]. split; [exact Hr|]. split; [exact Hfirst|].
  intros c H. apply Hlast. rewrite <- Hlast'; [exact H|].
  intros E. rewrite E in H. discriminate H.
Qed.

End PyStrFacts.

(* ===================================================================== *)
(** ** Model Client: fence stripping *)

Section Fences.
Import PyStr PyStrFacts.

Lemma fence_nonempty : "```" <> "".
Proof. discriminate. Qed.

Lemma label_nonempty : "```json" <> "".
Proof. discriminate. Qed.

(** With a labeled fence, what is kept lies after the first [```json], stops
    at the following [```json] and then at the first [```]. *)
Lemma clean_labeled (s a b : string) :
  find_first "```json" s = Some (a, b) ->
  clean_content (JStr s)
  = Ok (JStr (strip (upto "```" (upto "```json" b)))).
Proof.
  intros E. unfold clean_content. cbn [py_in rbind].
  assert (contains "```json" s = true) as ->.
  { destruct (contains "```json" s) eqn:C; [reflexivity|].
    apply find_first_none in C. congruence. }
  cbn [split_method].
  destruct (split_second "```json" s a b label_nonempty E) as [rest ->].
  cbn [rbind list_index nth_error].
  destruct (split_first "```" (upto "```json" b) fence_nonempty) as [rest' ->].
  reflexivity.
Qed.

Lemma clean_unlabeled (s a b : string) :
  contains "```json" s = false ->
  find_first "```" s = Some (a, b) ->
  clean_content (JStr s) = Ok (JStr (strip (upto "```" b))).
Proof.
  intros C E. unfold clean_content. cbn [py_in rbind]. rewrite C.
  assert (contains "```" s = true) as ->.
  { destruct (contains "```" s) eqn:C'; [reflexivity|].
    apply find_first_none in C'. congruence. }
  cbn [split_method].
  destruct (split_second "```" s a b fence_nonempty E) as [rest ->].
  cbn [rbind list_index nth_error].
  destruct (split_first "```" (upto "```" b) fence_nonempty) as [rest' ->].
  cbn [rbind list_index nth_error].
  rewrite (upto_none "```" (upto "```" b)); [reflexivity|].
  apply contains_upto, fence_nonempty.
Qed.

Lemma clean_raw (s : string) :
  contains "```" s = false -> clean_content (JStr s) = Ok (JStr s).
Proof.
  intros C. unfold clean_content. cbn [py_in rbind].
  change "```json" with ("```" ++ "json").
  rewrite (contains_weaken "```" "json" s C). now rewrite C.
Qed.

(** The text up to the closing fence is found through the labeled rule
    unless the closing fence is continued as [````json] or [`````json]. *)
Lemma upto_fence_label (body post : string) :
  contains "```" (body ++ "``") = false ->
  startswith "`json" post = false ->
  startswith "``json" post = false ->
  upto "```" (upto "```json" (body ++ "```" ++ post)) = body.
Proof.
  intros Hb H1 H2. induction body as [|c body IH].
  - change ("" ++ "```" ++ post)
      with (String "`" (String "`" (String "`" post))).
    destruct (startswith "```json" (String "`" (String "`" (String "`" post))))
      eqn:E.
    + unfold upto at 2. rewrite find_first_eq, E. reflexivity.
    + rewrite (upto_cons "```json" _ _ E).
      rewrite (upto_cons "```json" "`" (String "`" post) H1).
      rewrite (upto_cons "```json" "`" post H2).
      apply (upto_here "```").
  - simpl in Hb. apply orb_false_iff in Hb. destruct Hb as [Hs Hb].
    fold (contains "```" (body ++ "``")) in Hb.
    change (String c body ++ "```" ++ post)
      with (String c (body ++ "```" ++ post)).
    assert (startswith "```" (String c (body ++ "```" ++ post)) = false)
      as Hrest.
    { destruct (startswith "```" (String c (body ++ "```" ++ post))) eqn:E;
        [|reflexivity].
      change (String c (body ++ "```" ++ post))
        with (String c (body ++ "``" ++ ("`" ++ post))) in E.
      rewrite <- app_assoc in E.
      change (String c ((body ++ "``") ++ "`" ++ post))
        with (String c (body ++ "``") ++ ("`" ++ post)) in E.
      apply startswith_short in E.
      - simpl in E. rewrite E in Hs. discriminate Hs.
      - simpl. rewrite length_app. simpl. lia. }
    assert (startswith "```json" (String c (body ++ "```" ++ post)) = false)
      as Hlab.
    { destruct (startswith "```json" (String c (body ++ "```" ++ post)))
        eqn:E; [|reflexivity].
      apply (startswith_weaken "```" "json") in E. congruence. }
    rewrite (upto_cons "```json" _ _ Hlab).
    assert (startswith "```"
              (String c (upto "```json" (body ++ "```" ++ post))) = false)
      as Hcut.
    { destruct (startswith "```"
                  (String c (upto "```json" (body ++ "```" ++ post))))
        eqn:E; [|reflexivity].
      destruct (upto_prefix "```json" (body ++ "```" ++ post)) as [r Hr].
      apply (startswith_app_l _ _ r) in E.
      change (String c (upto "```json" (body ++ "```" ++ post)) ++ r)
        with (String c (upto "```json" (body ++ "```" ++ post) ++ r)) in E.
      rewrite <- Hr in E. congruence. }
    rewrite (upto_cons "```" _ _ Hcut). f_equal. apply IH, Hb.
Qed.

End Fences.

Section ModelClient.
Import PyStr PyStrFacts.

Variable loads : string -> option json.

(** Once the content is reached, the envelope plays no further part. *)
Lemma read_envelope_content (envelope content : json) :
  content_of envelope = Some content ->
  read_envelope loads envelope =
  (text <- clean_content content ;;
   match py_json_loads loads text with
   | Ok v => Ok v
   | Raise e => if is_JSONDecodeError e then Ok (JList []) else Raise e
   end)%res.
Proof.
  unfold content_of, read_envelope.
  destruct envelope as [| | | | |l|d]; try discriminate.
  cbn [getitem_key py_in rbind]. unfold dict_mem.
  destruct (dict_get "choices" d) as [choices|]; [|discriminate].
  cbn [negb rbind]. destruct (truthy choices); [|discriminate].
  cbn [negb]. destruct (getitem_0 choices) as [first|]; [|discriminate].
  cbn [rbind]. destruct (getitem_key first "message") as [message|];
    [|discriminate].
  cbn [rbind]. destruct (getitem_key message "content") as [c|];
    [|discriminate].
  intros H; injection H as ->. reflexivity.
Qed.

Lemma read_envelope_text (envelope content : json) (text : string) :
  content_of envelope = Some content ->
  clean_content content = Ok (JStr text) ->
  read_envelope loads envelope = Ok (parse_or_empty loads text).
Proof.
  intros Hc Ht. rewrite (read_envelope_content _ _ Hc), Ht.
  cbn [rbind py_json_loads]. unfold parse_or_empty.
  now destruct (loads text).
Qed.

(** C5 (as amended).  The labeled fence has priority over the unlabeled
    one, whatever precedes it.  With a [```json] in the content, the text
    between the first [```json] and the next [```] is trimmed and parsed,
    provided that this [```] is not continued as [````json] or [`````json];
    when no [```] follows, the text to the end is taken.  Without
    [```json] but with a [```], the text between the first [```] and the
    next one (or the end) is trimmed and parsed.  Without any [```] the raw
    content is parsed. *)
Theorem fence_stripping_priority (envelope : json) (content : string) :
  content_of envelope = Some (JStr content) ->
  (forall pre body post,
      content = pre ++ "```json" ++ body ++ "```" ++ post ->
      contains "```json" (pre ++ "```jso") = false ->
      contains "```" (body ++ "``") = false ->
      startswith "`json" post = false ->
      startswith "``json" post = false ->
      read_envelope loads envelope = Ok (parse_or_empty loads (strip body)))
  /\ (forall pre body,
      content = pre ++ "```json" ++ body ->
      contains "```json" (pre ++ "```jso") = false ->
      contains "```" body = false ->
      read_envelope loads envelope = Ok (parse_or_empty loads (strip body)))
  /\ (forall pre body post,
      contains "```json" content = false ->
      content = pre ++ "```" ++ body ++ "```" ++ post ->
      contains "```" (pre ++ "``") = false ->
      contains "```" (body ++ "``") = false ->
      read_envelope loads envelope = Ok (parse_or_empty loads (strip body)))
  /\ (forall pre body,
      contains "```json" content = false ->
      content = pre ++ "```" ++ body ->
      contains "```" (pre ++ "``") = false ->
      contains "```" body = false ->
      read_envelope loads envelope = Ok (parse_or_empty loads (strip body)))
  /\ (contains "```" content = false ->
      read_envelope loads envelope = Ok (parse_or_empty loads content)).
Proof.
  intros Hc. repeat split.
  - intros pre body post -> Hpre Hbody H1 H2.
    apply (read_envelope_text _ _ _ Hc).
    rewrite (clean_labeled _ pre (body ++ "```" ++ post)).
    + now rewrite upto_fence_label.
    + apply (find_first_at "```jso" "n"), Hpre.
  - intros pre body -> Hpre Hbody.
    apply (read_envelope_text _ _ _ Hc).
    rewrite (clean_labeled _ pre body).
    + rewrite (upto_none "```json" body).
      * now rewrite (upto_none "```" body).
      * apply (contains_weaken "```" "json"), Hbody.
    + apply (find_first_at "```jso" "n"), Hpre.
  - intros pre body post Hlab -> Hpre Hbody.
    apply (read_envelope_text _ _ _ Hc).
    rewrite (clean_unlabeled _ pre (body ++ "```" ++ post) Hlab).
    + assert (find_first "```" (body ++ "```" ++ post) = Some (body, post))
        as F by (apply (find_first_at "``" "`"), Hbody).
      unfold upto. now rewrite F.
    + apply (find_first_at "``" "`"), Hpre.
  - intros pre body Hlab -> Hpre Hbody.
    apply (read_envelope_text _ _ _ Hc).
    rewrite (clean_unlabeled _ pre body Hlab).
    + now rewrite (upto_none "```" body).
    + apply (find_first_at "``" "`"), Hpre.
  - intros Hraw. apply (read_envelope_text _ _ _ Hc), clean_raw, Hraw.
Qed.

End ModelClient.

(* ===================================================================== *)
(** ** Model Client: failures are absorbed *)

Section ClientFailures.

Variable env : environment.

(** Without content to read, the envelope gives the empty list or raises. *)
Lemma read_envelope_no_content (loads : string -> option json) (j : json) :
  content_of j = None ->
  read_envelope loads j = Ok (JList []) \/
  exists e, read_envelope loads j = Raise e.
Proof.
  unfold content_of, read_envelope.
  destruct j as [| | | |s|l|d]; cbn [py_in getitem_key rbind];
    try (right; eexists; reflexivity).
  - intros _. destruct (negb (PyStr.contains "choices" s));
      [now left | right; eexists; reflexivity].
  - intros _. destruct (negb (existsb (is_str "choices") l));
      [now left | right; eexists; reflexivity].
  - unfold dict_mem. destruct (dict_get "choices" d) as [choices|];
      [|now left]. cbn [negb rbind].
    destruct (truthy choices); [|now left]. cbn [negb].
    destruct (getitem_0 choices) as [first|e];
      [|right; eexists; reflexivity]. cbn [rbind].
    destruct (getitem_key first "message") as [message|e];
      [|right; eexists; reflexivity]. cbn [rbind].
    destruct (getitem_key message "content") as [c|e];
      [discriminate | right; eexists; reflexivity].
Qed.

Lemma read_envelope_no_choices (loads : string -> option json) (j : json) :
  no_choices j = true -> read_envelope loads j = Ok (JList []).
Proof.
  unfold no_choices, read_envelope. destruct j as [| | | | | |d];
    try discriminate.
  cbn [py_in getitem_key rbind]. unfold dict_mem.
  destruct (dict_get "choices" d) as [choices|]; [|reflexivity].
  cbn [negb rbind]. now intros ->.
Qed.

(** The value the client returns is [answer]; the world records the one
    request and, on an exception, one error line. *)
Lemma call_vision_model_answer (img : string) (w : world) :
  exists w',
    call_vision_model env img w = (Ok (answer env (List.length (sent w)) img), w')
    /\ checkpoint_file w' = checkpoint_file w
    /\ output_file w' = output_file w
    /\ sent w' = (sent w ++ [img])%list.
Proof.
  unfold call_vision_model, answer.
  destruct (try_body (json_loads env) (post env (List.length (sent w)) img));
    eexists; (split; [reflexivity | now repeat split]).
Qed.

(** What is returned is the empty list or the parse of the cleaned
    content. *)
Lemma answer_cases (k : nat) (img : string) :
  answer env k img = JList [] \/
  exists j content text,
    post env k img = Envelope j /\ content_of j = Some content /\
    clean_content content = Ok (JStr text) /\
    json_loads env text = Some (answer env k img).
Proof.
  unfold answer. destruct (post env k img) as [| | |j] eqn:Ho;
    cbn [try_body]; try now left.
  destruct (content_of j) as [content|] eqn:Hc.
  - rewrite (read_envelope_content _ _ _ Hc).
    destruct (clean_content content) as [c|e] eqn:Hclean; [|now left].
    cbn [rbind]. destruct c as [| | | |text| |]; try now left.
    cbn [py_json_loads]. destruct (json_loads env text) as [v|] eqn:Hl;
      [|now left].
    right. now exists j, content, text.
  - destruct (read_envelope_no_content (json_loads env) j Hc) as [->|[e ->]];
      now left.
Qed.

Lemma answer_failed (k : nat) (img : string) :
  failed (json_loads env) (post env k img) = true ->
  answer env k img = JList [].
Proof.
  unfold answer, failed. destruct (post env k img) as [| | |j];
    cbn [try_body]; try reflexivity.
  intros H. apply orb_true_iff in H. destruct H as [H|H].
  - now rewrite read_envelope_no_choices.
  - unfold unparsable in H.
    destruct (content_of j) as [content|] eqn:Hc; [|discriminate].
    rewrite (read_envelope_content _ _ _ Hc).
    destruct (clean_content content) as [c|e]; [|discriminate].
    destruct c as [| | | |text| |]; try discriminate.
    cbn [rbind py_json_loads]. now destruct (json_loads env text).
Qed.

(** C2.  Whatever the HTTP call comes to, the model client returns a value
    and raises nothing; on a network error, an error status, a body that is
    not JSON, an envelope without (or with empty) choices, and content that
    is not valid JSON after fence stripping, the value is the empty list.
    In every case the value is the empty list or the parse of the cleaned
    content. *)
Theorem model_client_never_raises (img : string) (w : world) :
  let o := post env (List.length (sent w)) img in
  exists v w',
    call_vision_model env img w = (Ok v, w')
    /\ (failed (json_loads env) o = true -> v = JList [])
    /\ (v = JList [] \/
        exists j content text,
          o = Envelope j /\ content_of j = Some content /\
          clean_content content = Ok (JStr text) /\
          json_loads env text = Some v).
Proof.
  intros o. destruct (call_vision_model_answer img w) as [w' [H _]].
  exists (answer env (List.length (sent w)) img), w'.
  split; [exact H|]. split.
  - apply answer_failed.
  - apply answer_cases.
Qed.

End ClientFailures.

(* ===================================================================== *)
(** ** Dictionaries and ranges *)

Lemma dict_get_set_eq (k : string) (v : json) (d : dict) :
  dict_get k (dict_set k v d) = Some v.
Proof.
  induction d as [|[k' v'] d IH]; simpl.
  - now rewrite String.eqb_refl.
  - destruct (String.eqb k' k) eqn:E; simpl.
    + now rewrite String.eqb_refl.
    + now rewrite E.
Qed.

Lemma dict_get_set_neq (k k' : string) (v : json) (d : dict) :
  k <> k' -> dict_get k (dict_set k' v d) = dict_get k d.
Proof.
  intros Hk. induction d as [|[k0 v0] d IH]; simpl.
  - destruct (String.eqb_spec k' k); [congruence | reflexivity].
  - destruct (String.eqb_spec k0 k'); simpl.
    + subst k0. destruct (String.eqb_spec k' k); [congruence | reflexivity].
    + now rewrite IH.
Qed.

Lemma dict_set_same (k : string) (v : json) (d : dict) :
  dict_get k d = Some v -> dict_set k v d = d.
Proof.
  induction d as [|[k' v'] d IH]; simpl; [discriminate|].
  destruct (String.eqb_spec k' k).
  - intros H; injection H as ->. now subst.
  - intros H. now rewrite IH.
Qed.

Lemma py_range_nil (a b : Z) : b <= a -> py_range a b = [].
Proof.
  intros H. unfold py_range. now replace (Z.to_nat (b - a)) with 0%nat by lia.
Qed.

Lemma py_range_cons (a b : Z) :
  a < b -> py_range a b = a :: py_range (a + 1) b.
Proof.
  intros H. unfold py_range.
  replace (Z.to_nat (b - a)) with (S (Z.to_nat (b - (a + 1)))) by lia.
  simpl. rewrite Z.add_0_r. f_equal.
  rewrite <- seq_shift, map_map. apply map_ext. intros k. lia.
Qed.

Lemma py_range_length (a b : Z) :
  List.length (py_range a b) = Z.to_nat (b - a).
Proof. unfold py_range. now rewrite length_map, length_seq. Qed.

Lemma py_range_app (a k b : Z) :
  a <= k <= b -> py_range a b = (py_range a k ++ py_range k b)%list.
Proof.
  intros H. remember (Z.to_nat (k - a)) as n eqn:Hn.
  revert a H Hn. induction n as [|n IH]; intros a H Hn.
  - now rewrite (py_range_nil a k), (Z.le_antisymm a k) by lia.
  - rewrite (py_range_cons a b), (py_range_cons a k) by lia.
    simpl. f_equal. apply IH; lia.
Qed.

(* ===================================================================== *)
(** ** Extraction loop: one page *)

Section Loop.

Variable env : environment.

Lemma sent_say (l : line) (w : world) : sent (say l w) = sent w.
Proof. reflexivity. Qed.

(** A page that renders and whose answer can be added: the questions grow
    by the added items, [last_page] moves to [i + 1], the checkpoint file
    holds the new state, one request was sent. *)
Lemma page_step_ok (i : Z) (data : dict) (w : world)
      (img : string) (qs xs : list json) :
  page_image env i = Ok img ->
  items (answer env (List.length (sent w)) img) = Ok xs ->
  dict_get "questions" data = Some (JList qs) ->
  let data' := dict_set "last_page" (JInt (i + 1))
                 (dict_set "questions" (JList (qs ++ xs)) data) in
  exists w',
    page_step env i data w = (Ok data', w')
    /\ checkpoint_file w' = Holds (JDict data')
    /\ output_file w' = output_file w
    /\ sent w' = (sent w ++ [img])%list.
Proof.
  intros Himg Hitems Hq data'. unfold page_image in Himg.
  cbv [page_step bind print lift ret write_checkpoint].
  destruct (load_page env i) as [pg|e]; cbn [rbind] in Himg; [|discriminate].
  rewrite Himg.
  destruct (call_vision_model_answer env img
              (say (Processing (i + 1) (total_pages env)) w))
    as [w1 [Hcall [Hck [Hout Hsent]]]].
  rewrite Hcall, sent_say. unfold items in Hitems.
  destruct (truthy (answer env (List.length (sent w)) img)).
  - destruct (py_len (answer env (List.length (sent w)) img)) as [n|e];
      cbn [rbind] in Hitems; [|discriminate].
    unfold dict_lookup. rewrite Hq. cbn [py_extend]. rewrite Hitems.
    cbn [rbind]. eexists. split; [reflexivity|]. now repeat split.
  - injection Hitems as <-. eexists. split.
    + unfold data'. rewrite List.app_nil_r, (dict_set_same _ _ _ Hq).
      reflexivity.
    + unfold data'. rewrite List.app_nil_r, (dict_set_same _ _ _ Hq).
      now repeat split.
Qed.

(** A page whose answer is falsy: the step does not look at the questions
    at all; it moves [last_page], writes the checkpoint and returns. *)
Lemma page_step_falsy (i : Z) (data : dict) (w : world) (img : string) :
  page_image env i = Ok img ->
  truthy (answer env (List.length (sent w)) img) = false ->
  let data' := dict_set "last_page" (JInt (i + 1)) data in
  exists w',
    page_step env i data w = (Ok data', w')
    /\ checkpoint_file w' = Holds (JDict data')
    /\ output_file w' = output_file w
    /\ sent w' = (sent w ++ [img])%list.
Proof.
  intros Himg Hfalsy data'. unfold page_image in Himg.
  cbv [page_step bind print lift ret write_checkpoint].
  destruct (load_page env i) as [pg|e]; cbn [rbind] in Himg; [|discriminate].
  rewrite Himg.
  destruct (call_vision_model_answer env img
              (say (Processing (i + 1) (total_pages env)) w))
    as [w1 [Hcall [Hck [Hout Hsent]]]].
  rewrite Hcall, sent_say, Hfalsy. eexists. split; [reflexivity|].
  now repeat split.
Qed.

(** Whenever a page step returns, the checkpoint file holds the state it
    returns, and the output file is as before. *)
Lemma page_step_inv (i : Z) (data data' : dict) (w w' : world) :
  page_step env i data w = (Ok data', w') ->
  checkpoint_file w' = Holds (JDict data')
  /\ output_file w' = output_file w
  /\ dict_get "last_page" data' = Some (JInt (i + 1)).
Proof.
  cbv [page_step bind print lift ret write_checkpoint].
  destruct (load_page env i) as [pg|e]; [|discriminate].
  destruct (pdf_page_to_base64 pg) as [img|e]; [|discriminate].
  destruct (call_vision_model_answer env img
              (say (Processing (i + 1) (total_pages env)) w))
    as [w1 [Hcall [Hck [Hout Hsent]]]].
  rewrite Hcall.
  destruct (truthy (answer env _ img)).
  - destruct (py_len (answer env _ img)) as [n|e]; [|discriminate].
    destruct (dict_lookup "questions" data) as [target|e]; [|discriminate].
    destruct (py_extend target (answer env _ img)) as [t|e]; [|discriminate].
    intros H; injection H as <- <-. cbn.
    now rewrite dict_get_set_eq.
  - intros H; injection H as <- <-. cbn.
    now rewrite dict_get_set_eq.
Qed.

(** A page that does not render: the step raises right after the progress
    line; nothing is sent and no file is written. *)
Lemma page_step_render_error (i : Z) (data : dict) (w : world) (e : exn) :
  page_image env i = Raise e ->
  page_step env i data w
  = (Raise e, say (Processing (i + 1) (total_pages env)) w).
Proof.
  unfold page_image. intros H.
  cbv [page_step bind print lift ret write_checkpoint].
  destruct (load_page env i) as [pg|e']; cbn [rbind] in H.
  - now rewrite H.
  - now injection H as ->.
Qed.

Lemma run_pages_app (p1 p2 : list Z) (data : dict) (w : world) :
  run_pages env (p1 ++ p2) data w
  = bind (run_pages env p1 data) (run_pages env p2) w.
Proof.
  revert data w. induction p1 as [|i p1 IH]; intros data w.
  - reflexivity.
  - cbn [run_pages app]. unfold bind.
    destruct (page_step env i data w) as [[d1|e] w1]; [|reflexivity].
    rewrite IH. reflexivity.
Qed.

Lemma run_pages_inv (pages : list Z) (data data' : dict) (w w' : world) :
  run_pages env pages data w = (Ok data', w') ->
  output_file w' = output_file w
  /\ (pages <> [] -> checkpoint_file w' = Holds (JDict data'))
  /\ (pages = [] -> data' = data /\ w' = w).
Proof.
  revert data w. induction pages as [|i rest IH]; intros data w.
  - cbn. intros H; injection H as <- <-. now repeat split.
  - cbn [run_pages]. unfold bind.
    destruct (page_step env i data w) as [[d1|e] w1] eqn:Hstep;
      [|discriminate].
    intros Hrun. destruct (page_step_inv _ _ _ _ _ Hstep) as [Hck [Hout _]].
    destruct (IH _ _ Hrun) as [Hout' [Hne Hnil]].
    split; [congruence|]. split; [|discriminate].
    intros _. destruct rest as [|j rest].
    + destruct (Hnil eq_refl) as [-> ->]. exact Hck.
    + apply Hne. discriminate.
Qed.

End Loop.

(* ===================================================================== *)
(** ** Extraction loop: a range of pages *)

Section Run.
Local Open Scope list_scope.

Variable env : environment.

(** The loop over [range(a, b)] when every page renders and every answer
    can be added. *)
Lemma run_range_ok (n : nat) :
  forall (a b : Z) (data : dict) (w : world) (qs : list json)
         (ys : list (string * list json)),
    Z.to_nat (b - a) = n ->
    yields env (List.length (sent w)) (py_range a b) = Ok ys ->
    dict_get "questions" data = Some (JList qs) ->
    exists data' w',
      run_pages env (py_range a b) data w = (Ok data', w')
      /\ dict_get "questions" data'
         = Some (JList (qs ++ List.concat (map snd ys)))
      /\ (a < b -> dict_get "last_page" data' = Some (JInt b)
                   /\ checkpoint_file w' = Holds (JDict data'))
      /\ (b <= a -> data' = data /\ w' = w)
      /\ (forall k, k <> "last_page" -> k <> "questions" ->
                    dict_get k data' = dict_get k data)
      /\ sent w' = (sent w ++ map fst ys)%list
      /\ output_file w' = output_file w
      /\ List.length ys = Z.to_nat (b - a).
Proof.
  induction n as [|n IH]; intros a b data w qs ys Hn Hy Hq.
  - rewrite py_range_nil in * by lia. cbn in Hy. injection Hy as <-.
    exists data, w. cbn. rewrite !List.app_nil_r, Hn.
    repeat split; try assumption; try reflexivity; lia.
  - rewrite py_range_cons in * by lia. cbn [yields] in Hy.
    destruct (page_image env a) as [img|e] eqn:Himg; [|discriminate].
    cbn [rbind] in Hy.
    destruct (items (answer env (List.length (sent w)) img)) as [xs|e]
      eqn:Hitems; [|discriminate].
    cbn [rbind] in Hy.
    destruct (yields env (S (List.length (sent w))) (py_range (a + 1) b))
      as [more|e] eqn:Hmore; [|discriminate].
    cbn [rbind] in Hy. injection Hy as <-.
    destruct (page_step_ok env a data w img qs xs Himg Hitems Hq)
      as [w1 [Hstep [Hck1 [Hout1 Hsent1]]]].
    set (data1 := dict_set "last_page" (JInt (a + 1))
                    (dict_set "questions" (JList (qs ++ xs)) data)) in *.
    assert (dict_get "questions" data1 = Some (JList (qs ++ xs))) as Hq1.
    { unfold data1. rewrite dict_get_set_neq by discriminate.
      apply dict_get_set_eq. }
    assert (List.length (sent w1) = S (List.length (sent w))) as Hlen.
    { rewrite Hsent1, length_app. simpl. lia. }
    rewrite <- Hlen in Hmore.
    destruct (IH (a + 1) b data1 w1 (qs ++ xs) more ltac:(lia) Hmore Hq1)
      as [data' [w' [Hrun [Hq' [Hlt [Hge [Hother [Hsent [Hout Hys]]]]]]]]].
    exists data', w'. cbn [run_pages]. unfold bind. rewrite Hstep.
    split; [exact Hrun|]. split.
    { rewrite Hq'. cbn [map List.concat snd]. now rewrite <- List.app_assoc. }
    split.
    { intros _. destruct (Z.lt_ge_cases (a + 1) b) as [Hab|Hab].
      - apply Hlt, Hab.
      - destruct (Hge Hab) as [-> ->]. replace b with (a + 1) by lia.
        split; [apply dict_get_set_eq | exact Hck1]. }
    split; [intros Hba; lia|]. split.
    { intros k Hk1 Hk2. rewrite (Hother k Hk1 Hk2). unfold data1.
      rewrite !dict_get_set_neq by congruence. reflexivity. }
    split.
    { rewrite Hsent, Hsent1. cbn [map fst]. now rewrite <- List.app_assoc. }
    split; [congruence|]. cbn [List.length]. rewrite Hys. lia.
Qed.

(** The entries of [yields] are the pages in order: entry [j] belongs to
    request number [k + j]. *)
Lemma yields_nth (pages : list Z) :
  forall (k : nat) (ys : list (string * list json)) (j : nat)
         (img : string) (xs : list json),
    yields env k pages = Ok ys ->
    nth_error ys j = Some (img, xs) ->
    exists i, nth_error pages j = Some i
              /\ page_image env i = Ok img
              /\ items (answer env (k + j) img) = Ok xs.
Proof.
  induction pages as [|i rest IH]; intros k ys j img xs Hy Hj.
  - cbn in Hy. injection Hy as <-. destruct j; discriminate.
  - cbn [yields] in Hy.
    destruct (page_image env i) as [img0|e] eqn:Himg; [|discriminate].
    cbn [rbind] in Hy.
    destruct (items (answer env k img0)) as [xs0|e] eqn:Hit; [|discriminate].
    cbn [rbind] in Hy.
    destruct (yields env (S k) rest) as [more|e] eqn:Hmore; [|discriminate].
    cbn [rbind] in Hy. injection Hy as <-.
    destruct j as [|j].
    + cbn in Hj. injection Hj as <- <-. exists i.
      rewrite Nat.add_0_r. now repeat split.
    + cbn in Hj. destruct (IH (S k) more j img xs Hmore Hj)
        as [i' [Hi' [Himg' Hit']]].
      exists i'. replace (k + S j)%nat with (S k + j)%nat by lia.
      now repeat split.
Qed.

Lemma items_falsy (v : json) : truthy v = false -> items v = Ok [].
Proof. unfold items. now intros ->. Qed.

Lemma chars_length (s : string) : List.length (chars s) = String.length s.
Proof. induction s as [|c s IH]; simpl; [reflexivity | now rewrite IH]. Qed.

(** What a page adds is as long as the [len] of the returned value, and
    nothing for a falsy value. *)
Lemma items_length (v : json) (xs : list json) :
  items v = Ok xs ->
  if truthy v then py_len v = Ok (Z.of_nat (List.length xs)) else xs = [].
Proof.
  unfold items. destruct (truthy v); [|now intros H; injection H as <-].
  destruct v as [| | | |s|l|d]; cbn; try discriminate;
    intros H; injection H as <-.
  - now rewrite chars_length.
  - reflexivity.
  - now rewrite length_map.
Qed.

(** [process_pdf] is: load the checkpoint, loop from its [last_page], save. *)
Lemma process_pdf_eq (start_page : Z) (w w0 : world) (data0 : dict)
      (last_page : json) (first : Z) :
  load_checkpoint start_page w = (Ok data0, w0) ->
  dict_get "last_page" data0 = Some last_page ->
  as_index last_page = Ok first ->
  process_pdf env start_page w
  = bind (run_pages env (py_range first (total_pages env)) data0)
         final_save w0.
Proof.
  intros Hl Hd Hi. unfold process_pdf. unfold bind at 1. rewrite Hl.
  unfold bind at 1, lift at 1, dict_lookup. rewrite Hd.
  unfold bind at 1, lift at 1. rewrite Hi. reflexivity.
Qed.

Lemma load_checkpoint_output (start_page : Z) (w w0 : world) (data0 : dict) :
  load_checkpoint start_page w = (Ok data0, w0) ->
  output_file w0 = output_file w /\ sent w0 = sent w
  /\ checkpoint_file w0 = checkpoint_file w.
Proof.
  unfold load_checkpoint.
  destruct (checkpoint_file w) as [|e|j] eqn:Hf.
  - intros H; injection H as <- <-. now rewrite Hf.
  - intros H; injection H as <- <-. cbn. now rewrite Hf.
  - destruct j as [| | | | |l|d];
      try (intros H; injection H as <- <-; cbn; now rewrite Hf).
    destruct (dict_mem "last_page" d);
      [|intros H; injection H as <- <-; cbn; now rewrite Hf].
    destruct (dict_lookup "last_page" d) as [v|e];
      [destruct (can_add_one v)|];
      intros H; injection H as <- <-; cbn; now rewrite Hf.
Qed.

(** The final save writes the questions alone, whatever the output file
    held. *)
Lemma final_save_ok (data : dict) (w : world) (qs : list json) :
  dict_get "questions" data = Some (JList qs) ->
  final_save data w
  = (Ok tt, say (Finished (Z.of_nat (List.length qs)))
              (set_output (Holds (JList qs)) w)).
Proof.
  intros Hq. cbv [final_save bind lift print dict_lookup]. rewrite Hq.
  reflexivity.
Qed.

End Run.

(* ===================================================================== *)
(** ** Loading the checkpoint *)

Section Loading.

Variable env : environment.

(** C1 (as amended).  A checkpoint whose contents are neither a mapping
    containing [last_page] nor a bare array makes the loop start fresh,
    with [last_page = start_page - 1] and no questions, and nothing is
    printed for it.  The problem is printed, and the loop also starts
    fresh, when opening or parsing the file raises.  A missing file gives
    the fresh state silently. *)
Theorem unrecognised_checkpoint_starts_fresh (start_page : Z) (w : world) :
  let fresh := [("last_page", JInt (start_page - 1)); ("questions", JList [])] in
  (forall j,
      checkpoint_file w = Holds j ->
      is_dict_with "last_page" j = false ->
      is_list j = false ->
      load_checkpoint start_page w = (Ok fresh, w))
  /\ (forall e,
      checkpoint_file w = Unreadable e ->
      load_checkpoint start_page w = (Ok fresh, say (ErrorLoading e) w))
  /\ (checkpoint_file w = Missing ->
      load_checkpoint start_page w = (Ok fresh, w)).
Proof.
  intros fresh. unfold load_checkpoint. repeat split.
  - intros j Hf Hd Hl. rewrite Hf.
    destruct j as [| | | | |l|d]; try reflexivity; try discriminate.
    cbn [is_dict_with] in Hd. now rewrite Hd.
  - intros e Hf. now rewrite Hf.
  - intros Hf. now rewrite Hf.
Qed.

(** C3.  A checkpoint that is a mapping with an integer [last_page] and
    with [questions] is taken as the state, unchanged: the loop runs over
    [range(last_page, total_pages)], so the first page processed, if any,
    has index [last_page] (page number [last_page + 1]), and the
    accumulated questions are the stored ones. *)
Theorem resume_from_checkpoint (start_page : Z) (w : world)
        (d : dict) (n : Z) (qs : json) :
  checkpoint_file w = Holds (JDict d) ->
  dict_get "last_page" d = Some (JInt n) ->
  dict_get "questions" d = Some qs ->
  exists data w',
    load_checkpoint start_page w = (Ok data, w')
    /\ data = d
    /\ dict_get "last_page" data = Some (JInt n)
    /\ dict_get "questions" data = Some qs
    /\ process_pdf env start_page w
       = bind (run_pages env (py_range n (total_pages env)) data)
              final_save w'
    /\ (n < total_pages env ->
        hd_error (py_range n (total_pages env)) = Some n).
Proof.
  intros Hf Hl Hq.
  assert (load_checkpoint start_page w = (Ok d, say (Resuming (JInt n)) w))
    as Hload.
  { unfold load_checkpoint, dict_mem, dict_lookup. now rewrite Hf, Hl. }
  exists d, (say (Resuming (JInt n)) w).
  split; [exact Hload|]. split; [reflexivity|].
  split; [exact Hl|]. split; [exact Hq|]. split.
  - now apply (process_pdf_eq env start_page w _ d (JInt n) n).
  - intros Hn. now rewrite py_range_cons.
Qed.

(** C4.  A checkpoint that is a bare array, of any length, becomes the
    accumulated questions, element for element and in order, and
    [last_page] is [start_page - 1]: the loop runs from the configured
    start. *)
Theorem legacy_checkpoint (start_page : Z) (w : world) (l : list json) :
  checkpoint_file w = Holds (JList l) ->
  let data := [("last_page", JInt (start_page - 1)); ("questions", JList l)] in
  load_checkpoint start_page w = (Ok data, say LegacyFound w)
  /\ process_pdf env start_page w
     = bind (run_pages env (py_range (start_page - 1) (total_pages env)) data)
            final_save (say LegacyFound w).
Proof.
  intros Hf data.
  assert (load_checkpoint start_page w = (Ok data, say LegacyFound w))
    as Hload.
  { unfold load_checkpoint. now rewrite Hf. }
  split; [exact Hload|].
  now apply (process_pdf_eq env start_page w _ data
               (JInt (start_page - 1)) (start_page - 1)).
Qed.

End Loading.

(* ===================================================================== *)
(** ** The run as a whole *)

Section Claims.
Local Open Scope list_scope.

Variable env : environment.

(** C6 (as amended).  From the fresh state, once the loop has processed
    [N >= 1] pages, the checkpoint file holds the whole state, whose
    [last_page] is [start_page - 1 + N] and whose [questions] has as many
    elements as the model client returned over these [N] pages, page by
    page the [len] of the value it returned (none for an empty one).  As this
    holds for every [N] from 1 on, the file is rewritten after every page.
    What remains of the loop goes on from that state. *)
Theorem checkpoint_after_pages (start_page N : Z) (w : world)
        (ys : list (string * list json)) :
  1 <= N ->
  start_page - 1 + N <= total_pages env ->
  yields env (List.length (sent w))
         (py_range (start_page - 1) (start_page - 1 + N)) = Ok ys ->
  exists data' w' qs,
    run_pages env (py_range (start_page - 1) (start_page - 1 + N))
              (fresh_data start_page) w = (Ok data', w')
    /\ checkpoint_file w' = Holds (JDict data')
    /\ dict_get "last_page" data' = Some (JInt (start_page - 1 + N))
    /\ dict_get "questions" data' = Some (JList qs)
    /\ qs = List.concat (map snd ys)
    /\ List.length qs = list_sum (map (fun y => List.length (snd y)) ys)
    /\ Z.of_nat (List.length ys) = N
    /\ (forall j img xs,
           nth_error ys j = Some (img, xs) ->
           let v := answer env (List.length (sent w) + j) img in
           if truthy v then py_len v = Ok (Z.of_nat (List.length xs))
           else xs = [])
    /\ run_pages env (py_range (start_page - 1) (total_pages env))
                 (fresh_data start_page) w
       = run_pages env (py_range (start_page - 1 + N) (total_pages env))
                   data' w'.
Proof.
  intros HN Htot Hy.
  destruct (run_range_ok env _ (start_page - 1) (start_page - 1 + N)
              (fresh_data start_page) w [] ys eq_refl Hy eq_refl)
    as [data' [w' [Hrun [Hq [Hlt [_ [_ [_ [_ Hlen]]]]]]]]].
  destruct (Hlt ltac:(lia)) as [Hlast Hck].
  exists data', w', (List.concat (map snd ys)).
  split; [exact Hrun|]. split; [exact Hck|]. split; [exact Hlast|].
  split; [exact Hq|]. split; [reflexivity|]. split.
  { rewrite length_concat, map_map. reflexivity. }
  split; [rewrite Hlen; lia|]. split.
  { intros j img xs Hj.
    destruct (yields_nth env _ _ _ _ _ _ Hy Hj) as [i [_ [_ Hit]]].
    exact (items_length _ _ Hit). }
  rewrite (py_range_app (start_page - 1) (start_page - 1 + N)
             (total_pages env)) by lia.
  rewrite run_pages_app. unfold bind. now rewrite Hrun.
Qed.

(** C7.  A page whose call failed, or returned something empty, is passed
    over: whatever the state, the step changes nothing but [last_page],
    which becomes the next index, sends its one request, writes the
    checkpoint, and the loop goes on with the pages that follow.  And when
    every page renders and every answer can be added, the loop from index
    [a] goes through all the pages up to [total_pages]: one request per
    page and in page order, [last_page] ends at [total_pages], the
    checkpoint holds the final state, and the questions are the ones
    accumulated before followed by what each page added, which is nothing
    for a failed or empty page. *)
Theorem failed_page_is_absorbed :
  (forall (i : Z) (rest : list Z) (data : dict) (w : world) (img : string),
      page_image env i = Ok img ->
      failed (json_loads env) (post env (List.length (sent w)) img) = true
      \/ truthy (answer env (List.length (sent w)) img) = false ->
      let data' := dict_set "last_page" (JInt (i + 1)) data in
      exists w',
        page_step env i data w = (Ok data', w')
        /\ checkpoint_file w' = Holds (JDict data')
        /\ sent w' = sent w ++ [img]
        /\ run_pages env (i :: rest) data w = run_pages env rest data' w')
  /\ (forall (a : Z) (data : dict) (w : world) (qs : list json)
             (ys : list (string * list json)),
      a < total_pages env ->
      dict_get "questions" data = Some (JList qs) ->
      yields env (List.length (sent w)) (py_range a (total_pages env))
      = Ok ys ->
      exists data' w',
        run_pages env (py_range a (total_pages env)) data w = (Ok data', w')
        /\ dict_get "last_page" data' = Some (JInt (total_pages env))
        /\ dict_get "questions" data'
           = Some (JList (qs ++ List.concat (map snd ys)))
        /\ checkpoint_file w' = Holds (JDict data')
        /\ sent w' = sent w ++ map fst ys
        /\ List.length ys = List.length (py_range a (total_pages env))
        /\ (forall j img xs,
               nth_error ys j = Some (img, xs) ->
               failed (json_loads env)
                      (post env (List.length (sent w) + j) img) = true
               \/ truthy (answer env (List.length (sent w) + j) img) = false ->
               xs = [])).
Proof.
  assert (forall k img,
             failed (json_loads env) (post env k img) = true
             \/ truthy (answer env k img) = false ->
             truthy (answer env k img) = false) as Hfalsy.
  { intros k img [Hf|Hf]; [|exact Hf]. now rewrite (answer_failed env _ _ Hf). }
  split.
  - intros i rest data w img Himg Hfail data'.
    destruct (page_step_falsy env i data w img Himg (Hfalsy _ _ Hfail))
      as [w' [Hstep [Hck [_ Hsent]]]].
    exists w'. repeat split; try assumption.
    cbn [run_pages]. unfold bind. now rewrite Hstep.
  - intros a data w qs ys Hab Hq Hy.
    destruct (run_range_ok env _ a (total_pages env) data w qs ys
                eq_refl Hy Hq)
      as [data' [w' [Hrun [Hq' [Hlt [_ [_ [Hsent [_ Hlen]]]]]]]]].
    destruct (Hlt Hab) as [Hlast Hck].
    exists data', w'. repeat split; try assumption.
    + now rewrite py_range_length.
    + intros j img xs Hj Hfail.
      destruct (yields_nth env _ _ _ _ _ _ Hy Hj) as [i [_ [_ Hit]]].
      rewrite (items_falsy _ (Hfalsy _ _ Hfail)) in Hit. congruence.
Qed.

(** C8.  When the page loop completes, the run ends normally and the output
    file holds the questions of the final state and nothing else: the same
    elements in the same order, as a bare array, whatever the file held
    before.  The checkpoint file is not touched by the final save; if a
    page was processed it holds that final state. *)
Theorem final_output_is_questions (start_page : Z) (w w0 w1 : world)
        (data0 data' : dict) (last_page : json) (first : Z)
        (qs : list json) :
  load_checkpoint start_page w = (Ok data0, w0) ->
  dict_get "last_page" data0 = Some last_page ->
  as_index last_page = Ok first ->
  run_pages env (py_range first (total_pages env)) data0 w0
  = (Ok data', w1) ->
  dict_get "questions" data' = Some (JList qs) ->
  exists w',
    process_pdf env start_page w = (Ok tt, w')
    /\ output_file w' = Holds (JList qs)
    /\ checkpoint_file w' = checkpoint_file w1
    /\ (first < total_pages env ->
        checkpoint_file w' = Holds (JDict data'))
    /\ (total_pages env <= first ->
        data' = data0 /\ checkpoint_file w' = checkpoint_file w).
Proof.
  intros Hload Hl Hi Hrun Hq.
  rewrite (process_pdf_eq env _ _ _ _ _ _ Hload Hl Hi).
  unfold bind. rewrite Hrun, (final_save_ok _ _ _ Hq).
  eexists. split; [reflexivity|]. cbn.
  destruct (run_pages_inv env _ _ _ _ _ Hrun) as [_ [Hne Hnil]].
  repeat split.
  - intros Hlt. apply Hne. rewrite py_range_cons by lia. discriminate.
  - apply Hnil, py_range_nil. lia.
  - destruct Hnil as [_ ->]; [apply py_range_nil; lia|].
    now destruct (load_checkpoint_output _ _ _ _ Hload) as [_ [_ ->]].
Qed.

(** The rasterizer raises exactly when one of its two rendering calls
    raises, and with the same exception: it catches nothing. *)
Lemma rasterizer_propagates (pg : page) (e : exn) :
  pdf_page_to_base64 pg = Raise e <->
  get_pixmap pg 2 2 = Raise e
  \/ exists pix, get_pixmap pg 2 2 = Ok pix /\ tobytes_png pix = Raise e.
Proof.
  unfold pdf_page_to_base64.
  destruct (get_pixmap pg 2 2) as [pix|e1]; cbn [rbind].
  - destruct (tobytes_png pix) as [bs|e2] eqn:Hb; cbn [rbind]; split.
    + discriminate.
    + intros [H|[pix' [H1 H2]]]; [discriminate|].
      injection H1 as <-. congruence.
    + intros H. right. exists pix. split; [reflexivity | congruence].
    + intros [H|[pix' [H1 H2]]]; [discriminate|].
      injection H1 as <-. congruence.
  - split; [intros H; left; congruence|].
    intros [H|[pix' [H1 _]]]; [congruence | discriminate].
Qed.

(** C9.  A page that fails in the rasterizer ends the run with that
    exception: once the pages before it are done, the run prints the
    progress line of the failing page and stops.  No request is sent for
    that page, the checkpoint file stays as the page before left it, no
    later page is touched and the output file is not written. *)
Theorem rasterization_failure_aborts (start_page : Z) (w w0 w1 : world)
        (data0 d1 : dict) (last_page : json) (first k : Z)
        (pg : page) (e : exn) :
  load_checkpoint start_page w = (Ok data0, w0) ->
  dict_get "last_page" data0 = Some last_page ->
  as_index last_page = Ok first ->
  first <= k < total_pages env ->
  run_pages env (py_range first k) data0 w0 = (Ok d1, w1) ->
  load_page env k = Ok pg ->
  pdf_page_to_base64 pg = Raise e ->
  process_pdf env start_page w
  = (Raise e, say (Processing (k + 1) (total_pages env)) w1)
  /\ (forall w', snd (process_pdf env start_page w) = w' ->
                 checkpoint_file w' = checkpoint_file w1
                 /\ sent w' = sent w1
                 /\ output_file w' = output_file w).
Proof.
  intros Hload Hl Hi Hk Hrun Hpg Hraster.
  assert (page_image env k = Raise e) as Himg.
  { unfold page_image. now rewrite Hpg. }
  assert (process_pdf env start_page w
          = (Raise e, say (Processing (k + 1) (total_pages env)) w1))
    as Hproc.
  { rewrite (process_pdf_eq env _ _ _ _ _ _ Hload Hl Hi).
    rewrite (py_range_app first k (total_pages env)) by lia.
    rewrite (py_range_cons k) by lia.
    unfold bind at 1. rewrite run_pages_app. unfold bind at 1.
    rewrite Hrun. cbn [run_pages]. unfold bind at 1.
    now rewrite (page_step_render_error env _ _ _ _ Himg). }
  split; [exact Hproc|].
  intros w' <-. rewrite Hproc. cbn.
  destruct (run_pages_inv env _ _ _ _ _ Hrun) as [Hout _].
  destruct (load_checkpoint_output _ _ _ _ Hload) as [Hout0 _].
  repeat split. congruence.
Qed.

End Claims.

(* ===================================================================== *)
(** ** The returned value is not checked *)

Section Shapes.
Local Open Scope list_scope.

Variable env : environment.

Lemma answer_parsed (k : nat) (img : string) (j content : json)
      (text : string) (v : json) :
  post env k img = Envelope j ->
  content_of j = Some content ->
  clean_content content = Ok (JStr text) ->
  json_loads env text = Some v ->
  answer env k img = v.
Proof.
  intros Ho Hc Ht Hl. unfold answer. rewrite Ho. cbn [try_body].
  rewrite (read_envelope_text _ _ _ _ Hc Ht). unfold parse_or_empty.
  now rewrite Hl.
Qed.

(** The result of a page step in terms of the value the client returned. *)
Lemma page_step_value (i : Z) (data : dict) (w : world) (img : string) :
  page_image env i = Ok img ->
  let v := answer env (List.length (sent w)) img in
  fst (page_step env i data w)
  = if truthy v then
      (n <- py_len v ;;
       target <- dict_lookup "questions" data ;;
       target <- py_extend target v ;;
       Ok (dict_set "last_page" (JInt (i + 1))
             (dict_set "questions" target data)))%res
    else Ok (dict_set "last_page" (JInt (i + 1)) data).
Proof.
  intros Himg v. unfold page_image in Himg.
  cbv [page_step bind print lift ret write_checkpoint].
  destruct (load_page env i) as [pg|e]; cbn [rbind] in Himg; [|discriminate].
  rewrite Himg.
  destruct (call_vision_model_answer env img
              (say (Processing (i + 1) (total_pages env)) w))
    as [w1 [Hcall _]].
  rewrite Hcall, sent_say. fold v. destruct (truthy v); [|reflexivity].
  destruct (py_len v) as [n|e]; [|reflexivity]. cbn [rbind].
  destruct (dict_lookup "questions" data) as [target|e]; [|reflexivity].
  cbn [rbind]. now destruct (py_extend target v).
Qed.

(** C10.  When the content of the first choice parses to a value that is
    not an array, the model client returns that value as it is, and the
    loop applies [len] and [extend] to it without looking at its shape: an
    object adds its keys to the questions, a string adds its characters,
    and a number (or [true]) makes the page step raise [TypeError]. *)
Theorem no_shape_validation (i : Z) (data : dict) (w : world) (pg : page)
        (img : string) (j content : json) (text : string) (v : json)
        (qs : list json) :
  load_page env i = Ok pg ->
  pdf_page_to_base64 pg = Ok img ->
  post env (List.length (sent w)) img = Envelope j ->
  content_of j = Some content ->
  clean_content content = Ok (JStr text) ->
  json_loads env text = Some v ->
  is_list v = false ->
  dict_get "questions" data = Some (JList qs) ->
  fst (call_vision_model env img
         (say (Processing (i + 1) (total_pages env)) w)) = Ok v
  /\ (forall d, v = JDict d -> d <> [] ->
        fst (page_step env i data w)
        = Ok (dict_set "last_page" (JInt (i + 1))
                (dict_set "questions"
                   (JList (qs ++ map (fun kv => JStr (fst kv)) d)) data)))
  /\ (forall s, v = JStr s -> s <> EmptyString ->
        fst (page_step env i data w)
        = Ok (dict_set "last_page" (JInt (i + 1))
                (dict_set "questions" (JList (qs ++ chars s)) data)))
  /\ (can_add_one v = true -> truthy v = true ->
        fst (page_step env i data w) = Raise TypeError).
Proof.
  intros Hpg Hraster Ho Hc Ht Hl Hshape Hq.
  assert (answer env (List.length (sent w)) img = v) as Hv
    by exact (answer_parsed _ _ _ _ _ _ Ho Hc Ht Hl).
  assert (page_image env i = Ok img) as Himg.
  { unfold page_image. now rewrite Hpg. }
  pose proof (page_step_value i data w img Himg) as Hstep.
  cbv zeta in Hstep. rewrite Hv in Hstep. unfold dict_lookup in Hstep.
  rewrite Hq in Hstep.
  repeat split.
  - destruct (call_vision_model_answer env img
                (say (Processing (i + 1) (total_pages env)) w))
      as [w1 [Hcall _]].
    rewrite Hcall, sent_say. cbn. now rewrite Hv.
  - intros d -> Hd. rewrite Hstep. destruct d; [congruence | reflexivity].
  - intros s -> Hs. rewrite Hstep. destruct s; [congruence | reflexivity].
  - intros Hnum Htruthy. rewrite Hstep, Htruthy.
    destruct v; try discriminate; reflexivity.
Qed.

End Shapes.

(* ===================================================================== *)
(** ** Worked runs *)

Section Worked.
Local Open Scope list_scope.
Import Sample.

Example split_two_fences :
  PyStr.split "```" "a```b```c" = Ok ["a"; "b"; "c"]%string.
Proof. reflexivity. Qed.

Example split_four_backticks :
  PyStr.split "```" "a````b```" = Ok ["a"; "`b"; ""]%string.
Proof. reflexivity. Qed.

Example strip_newlines : PyStr.strip fenced = fenced.
Proof. reflexivity. Qed.

Example b64_padding :
  Base64.b64encode [Byte.x4d; Byte.x61] = "TWE="
  /\ Base64.b64encode [Byte.x4d; Byte.x61; Byte.x6e] = "TWFu".
Proof. split; reflexivity. Qed.

(** A one-page document from [start_page = 1]: the output file holds the
    single answer and the checkpoint reaches 1. *)
Example one_page_document :
  let env := {| total_pages := 1;
                load_page := fun _ => Ok good_page;
                post := fun _ _ => Envelope (reply "[1]");
                json_loads := loads |} in
  exists w',
    process_pdf env 1 blank = (Ok tt, w')
    /\ output_file w' = Holds (JList [JInt 1])
    /\ checkpoint_file w'
       = Holds (JDict [("last_page", JInt 1); ("questions", JList [JInt 1])]).
Proof. eexists. repeat split. Qed.

(** The scenario of five pages with a network error on page 3: the run goes
    on to page 5, page 3 adds nothing, the checkpoint reaches 5. *)
Example network_error_on_page_3 :
  let eight := JList [JInt 1; JInt 2; JInt 1; JInt 2;
                      JInt 1; JInt 2; JInt 1; JInt 2] in
  exists w',
    process_pdf five_pages 1 blank = (Ok tt, w')
    /\ checkpoint_file w'
       = Holds (JDict [("last_page", JInt 5); ("questions", eight)])
    /\ output_file w' = Holds eight
    /\ console w'
       = [Processing 1 5; Found 2; Processing 2 5; Found 2;
          Processing 3 5; ErrorCalling ConnectionError; NoneFound 3;
          Processing 4 5; Found 2; Processing 5 5; Found 2; Finished 8].
Proof. eexists. repeat split. Qed.

(** A mapping with [last_page] alone is resumed from; the final save then
    finds no [questions] and leaves the output file empty. *)
Example resumed_without_questions :
  process_pdf five_pages 19 (with_checkpoint (JDict [("last_page", JInt 7)]))
  = (Raise KeyError,
     mkWorld (Holds (JDict [("last_page", JInt 7)])) truncated
             [Resuming (JInt 7)] []).
Proof. reflexivity. Qed.

(** A [last_page] that is not a number: the mapping is adopted, the resume
    line fails and the error line is printed instead, and [range] then
    refuses the value. *)
Example text_for_last_page :
  let d := [("last_page", JStr "7"); ("questions", JList [])] in
  let w := with_checkpoint (JDict d) in
  load_checkpoint 19 w = (Ok d, say (ErrorLoading TypeError) w)
  /\ process_pdf five_pages 19 w
     = (Raise TypeError, say (ErrorLoading TypeError) w).
Proof. split; reflexivity. Qed.

(** An unrecognised shape is dropped without a word. *)
Example number_checkpoint_is_silent :
  load_checkpoint 19 (with_checkpoint (JInt 42))
  = (Ok (fresh_data 19), with_checkpoint (JInt 42))
  /\ console (snd (load_checkpoint 19 (with_checkpoint (JInt 42)))) = [].
Proof. split; reflexivity. Qed.

(** C1, counterexample.  The mapping [{"last_page": 7}] has [last_page] and
    lacks [questions], so it is neither of the two accepted shapes; it is
    adopted all the same: the state is that mapping, not the fresh state,
    and the only line printed is the resume line.  The number 42 is no
    accepted shape either; the state is fresh but nothing is printed. *)
Lemma unrecognised_checkpoint_counterexample :
  (let j := JDict [("last_page", JInt 7)] in
   let w := with_checkpoint j in
   (is_dict_with "last_page" j && is_dict_with "questions" j) = false
   /\ is_list j = false
   /\ load_checkpoint 19 w
      = (Ok [("last_page", JInt 7)], say (Resuming (JInt 7)) w)
   /\ fst (load_checkpoint 19 w)
      <> Ok [("last_page", JInt (19 - 1)); ("questions", JList [])])
  /\ (let j := JInt 42 in
      let w := with_checkpoint j in
      (is_dict_with "last_page" j && is_dict_with "questions" j) = false
      /\ is_list j = false
      /\ console (snd (load_checkpoint 19 w)) = console w).
Proof.
  split.
  - split; [reflexivity|]. split; [reflexivity|]. split; [reflexivity|].
    discriminate.
  - split; [reflexivity|]. split; reflexivity.
Qed.

(** C5, counterexample.  In [```json[1]````json] the first [```json] is at
    the start and the next [```] comes right after [[1]], so the text
    between them is [[1]]; what is parsed is [[1]`], which is not JSON, and
    the client returns the empty list instead of the parse of [[1]]. *)
Lemma labeled_fence_counterexample :
  let content := "```json[1]````json"%string in
  content = ("" ++ "```json" ++ "[1]" ++ "```" ++ "`json")%string
  /\ PyStr.contains "```json" ("" ++ "```jso") = false
  /\ PyStr.contains "```" ("[1]" ++ "``") = false
  /\ clean_content (JStr content) = Ok (JStr "[1]`")
  /\ read_envelope loads (reply content) = Ok (JList [])
  /\ read_envelope loads (reply content)
     <> Ok (parse_or_empty loads (PyStr.strip "[1]")).
Proof. repeat split. discriminate. Qed.

(** C6, counterexample.  With [N = 0] pages processed from the fresh state
    nothing has been persisted.  Without a checkpoint file there is no
    checkpoint whose [last_page] could equal [start_page - 1 + 0]; with a
    checkpoint file of an unrecognised shape, here the number 42, the
    state is fresh as well and the file still holds that number. *)
Lemma nothing_persisted_before_first_page :
  let start_page := 1 in
  let N := 0 in
  let persisted (w : world) :=
    exists d, checkpoint_file w = Holds (JDict d)
              /\ dict_get "last_page" d = Some (JInt (start_page - 1 + N)) in
  (load_checkpoint start_page blank = (Ok (fresh_data start_page), blank)
   /\ run_pages five_pages (py_range (start_page - 1) (start_page - 1 + N))
                (fresh_data start_page) blank
      = (Ok (fresh_data start_page), blank)
   /\ checkpoint_file blank = Missing
   /\ ~ persisted blank)
  /\ (let stale := with_checkpoint (JInt 42) in
      load_checkpoint start_page stale = (Ok (fresh_data start_page), stale)
      /\ run_pages five_pages
                   (py_range (start_page - 1) (start_page - 1 + N))
                   (fresh_data start_page) stale
         = (Ok (fresh_data start_page), stale)
      /\ checkpoint_file stale = Holds (JInt 42)
      /\ ~ persisted stale).
Proof.
  split.
  - split; [reflexivity|]. split; [reflexivity|]. split; [reflexivity|].
    intros [d [H _]]. discriminate H.
  - split; [reflexivity|]. split; [reflexivity|]. split; [reflexivity|].
    intros [d [H _]]. discriminate H.
Qed.

End Worked.

(* ===================================================================== *)
(** ** The theorems at work on the samples *)

Section Instances.
Local Open Scope list_scope.
Import Sample.

(** A number in the checkpoint file: fresh start, nothing printed. *)
Lemma unrecognised_checkpoint_starts_fresh_witness :
  let w := with_checkpoint (JInt 42) in
  checkpoint_file w = Holds (JInt 42)
  /\ is_dict_with "last_page" (JInt 42) = false
  /\ is_list (JInt 42) = false
  /\ load_checkpoint 19 w
     = (Ok [("last_page", JInt (19 - 1)); ("questions", JList [])], w).
Proof.
  intros w. split; [reflexivity|]. split; [reflexivity|].
  split; [reflexivity|].
  apply (proj1 (unrecognised_checkpoint_starts_fresh 19
                  (with_checkpoint (JInt 42))) (JInt 42));
    reflexivity.
Defined.

(** The third request of the five-page sample fails: the empty list. *)
Lemma model_client_never_raises_witness :
  let w := mkWorld Missing Missing [] ["a"; "b"]%string in
  failed loads (post five_pages 2 "c") = true
  /\ exists w', call_vision_model five_pages "c" w = (Ok (JList []), w').
Proof.
  split; [reflexivity|].
  destruct (model_client_never_raises five_pages "c"
              (mkWorld Missing Missing [] ["a"; "b"]%string))
    as [v [w' [Hcall [Hfail _]]]].
  exists w'. rewrite Hcall, (Hfail eq_refl). reflexivity.
Defined.

Lemma resume_from_checkpoint_witness :
  let d := [("last_page", JInt 2); ("questions", JList [JInt 9])] in
  let w := with_checkpoint (JDict d) in
  dict_get "last_page" d = Some (JInt 2)
  /\ dict_get "questions" d = Some (JList [JInt 9])
  /\ exists data w',
      load_checkpoint 19 w = (Ok data, w')
      /\ data = d
      /\ dict_get "last_page" data = Some (JInt 2)
      /\ dict_get "questions" data = Some (JList [JInt 9])
      /\ process_pdf five_pages 19 w
         = bind (run_pages five_pages (py_range 2 (total_pages five_pages))
                           data) final_save w'
      /\ (2 < total_pages five_pages ->
          hd_error (py_range 2 (total_pages five_pages)) = Some 2).
Proof.
  split; [reflexivity|]. split; [reflexivity|].
  apply (resume_from_checkpoint five_pages 19
           (with_checkpoint
              (JDict [("last_page", JInt 2); ("questions", JList [JInt 9])]))
           [("last_page", JInt 2); ("questions", JList [JInt 9])] 2
           (JList [JInt 9]));
    reflexivity.
Defined.

Lemma legacy_checkpoint_witness :
  let w := with_checkpoint (JList [JInt 9; JInt 8]) in
  checkpoint_file w = Holds (JList [JInt 9; JInt 8])
  /\ load_checkpoint 19 w
     = (Ok [("last_page", JInt (19 - 1));
            ("questions", JList [JInt 9; JInt 8])],
        say LegacyFound w).
Proof.
  split; [reflexivity|].
  apply (legacy_checkpoint five_pages 19
           (with_checkpoint (JList [JInt 9; JInt 8])) [JInt 9; JInt 8]).
  reflexivity.
Defined.

(** A labeled fence after an unlabeled one: the labeled one is taken.  An
    unlabeled fence alone, and no fence at all. *)
Lemma fence_stripping_priority_witness :
  (let pre := "``` x ``` then "%string in
   let body := " [1, 2] "%string in
   let post := " bye"%string in
   let content := (pre ++ "```json" ++ body ++ "```" ++ post)%string in
   content_of (reply content) = Some (JStr content)
   /\ PyStr.contains "```json" (pre ++ "```jso") = false
   /\ PyStr.contains "```" (body ++ "``") = false
   /\ PyStr.startswith "`json" post = false
   /\ PyStr.startswith "``json" post = false
   /\ read_envelope loads (reply content)
      = Ok (parse_or_empty loads (PyStr.strip body))
   /\ parse_or_empty loads (PyStr.strip body) = JList [JInt 1; JInt 2])
  /\ (let content := "Sure: ``` [1] ``` ok"%string in
      PyStr.contains "```json" content = false
      /\ PyStr.contains "```" ("Sure: " ++ "``") = false
      /\ PyStr.contains "```" (" [1] " ++ "``") = false
      /\ read_envelope loads (reply content)
         = Ok (parse_or_empty loads (PyStr.strip " [1] ")))
  /\ (PyStr.contains "```" "[1, 2]" = false
      /\ read_envelope loads (reply "[1, 2]")
         = Ok (parse_or_empty loads "[1, 2]")).
Proof.
  split; [|split].
  - intros pre body post content.
    split; [reflexivity|]. split; [reflexivity|]. split; [reflexivity|].
    split; [reflexivity|]. split; [reflexivity|]. split; [|reflexivity].
    apply (proj1 (fence_stripping_priority loads
                    (reply "``` x ``` then ```json [1, 2] ``` bye")
                    "``` x ``` then ```json [1, 2] ``` bye" eq_refl)
             "``` x ``` then "%string " [1, 2] "%string " bye"%string);
      reflexivity.
  - intros content.
    split; [reflexivity|]. split; [reflexivity|]. split; [reflexivity|].
    apply (proj1 (proj2 (proj2 (fence_stripping_priority loads
                    (reply "Sure: ``` [1] ``` ok")
                    "Sure: ``` [1] ``` ok" eq_refl)))
             "Sure: "%string " [1] "%string " ok"%string);
      reflexivity.
  - split; [reflexivity|].
    apply (proj2 (proj2 (proj2 (proj2 (fence_stripping_priority loads
                    (reply "[1, 2]") "[1, 2]" eq_refl))))).
    reflexivity.
Defined.

(** Three pages of the five-page sample from the fresh state. *)
Lemma checkpoint_after_pages_witness :
  let ys := [("iVBORw==", [JInt 1; JInt 2]); ("iVBORw==", [JInt 1; JInt 2]);
             ("iVBORw==", [])]%string in
  1 <= 3
  /\ 1 - 1 + 3 <= total_pages five_pages
  /\ yields five_pages 0 (py_range (1 - 1) (1 - 1 + 3)) = Ok ys
  /\ exists data' w',
      run_pages five_pages (py_range (1 - 1) (1 - 1 + 3)) (fresh_data 1) blank
      = (Ok data', w')
      /\ checkpoint_file w' = Holds (JDict data')
      /\ dict_get "last_page" data' = Some (JInt 3)
      /\ dict_get "questions" data'
         = Some (JList [JInt 1; JInt 2; JInt 1; JInt 2]).
Proof.
  split; [lia|]. split; [cbn; lia|]. split; [reflexivity|].
  destruct (checkpoint_after_pages five_pages 1 3 blank
              [("iVBORw==", [JInt 1; JInt 2]);
               ("iVBORw==", [JInt 1; JInt 2]); ("iVBORw==", [])]%string)
    as [data' [w' [qs [Hrun [Hck [Hlast [Hq [Hqs _]]]]]]]];
    [lia | cbn; lia | reflexivity |].
  exists data', w'. subst qs. now repeat split.
Defined.

(** The five-page sample with its network error on page 3. *)
Lemma failed_page_is_absorbed_witness :
  let two := ("iVBORw=="%string, [JInt 1; JInt 2]) in
  let ys := [two; two; ("iVBORw=="%string, []); two; two] in
  0 < total_pages five_pages
  /\ yields five_pages 0 (py_range 0 (total_pages five_pages)) = Ok ys
  /\ failed loads (post five_pages 2 "iVBORw==") = true
  /\ exists data' w',
      run_pages five_pages (py_range 0 (total_pages five_pages))
                (fresh_data 1) blank = (Ok data', w')
      /\ dict_get "last_page" data' = Some (JInt 5)
      /\ checkpoint_file w' = Holds (JDict data')
      /\ List.length (sent w') = 5%nat.
Proof.
  split; [reflexivity|]. split; [reflexivity|]. split; [reflexivity|].
  destruct (proj2 (failed_page_is_absorbed five_pages)
              0 (fresh_data 1) blank []
              [("iVBORw=="%string, [JInt 1; JInt 2]);
               ("iVBORw=="%string, [JInt 1; JInt 2]);
               ("iVBORw=="%string, []);
               ("iVBORw=="%string, [JInt 1; JInt 2]);
               ("iVBORw=="%string, [JInt 1; JInt 2])])
    as [data' [w' [Hrun [Hlast [_ [Hck [Hsent _]]]]]]];
    [reflexivity | reflexivity | reflexivity |].
  exists data', w'. rewrite Hsent. now repeat split.
Defined.

Lemma final_output_is_questions_witness :
  exists w',
    process_pdf five_pages 1 (mkWorld Missing (Holds (JStr "old")) [] [])
    = (Ok tt, w')
    /\ output_file w'
       = Holds (JList [JInt 1; JInt 2; JInt 1; JInt 2;
                       JInt 1; JInt 2; JInt 1; JInt 2]).
Proof.
  edestruct (final_output_is_questions five_pages 1
               (mkWorld Missing (Holds (JStr "old")) [] []))
    as [w' [Hrun [Hout _]]];
    [reflexivity | reflexivity | reflexivity
     | vm_compute; reflexivity | reflexivity |].
  exists w'. split; [exact Hrun | exact Hout].
Defined.

(** The second page of the torn sample cannot be rendered. *)
Lemma rasterization_failure_aborts_witness :
  let w1 := snd (run_pages torn (py_range 0 1) (fresh_data 1) blank) in
  load_page torn 1 = Ok bad_page
  /\ pdf_page_to_base64 bad_page = Raise RenderError
  /\ process_pdf torn 1 blank = (Raise RenderError, say (Processing 2 3) w1)
  /\ checkpoint_file w1
     = Holds (JDict [("last_page", JInt 1); ("questions", JList [JInt 1])])
  /\ sent w1 = ["iVBORw=="%string].
Proof.
  intros w1. split; [reflexivity|]. split; [reflexivity|].
  split; [|split; reflexivity].
  assert (0 <= 1 < total_pages torn) as Hk by (cbn; lia).
  exact (proj1
           (rasterization_failure_aborts torn 1 blank blank
              (mkWorld
                 (Holds (JDict [("last_page", JInt 1);
                                ("questions", JList [JInt 1])]))
                 Missing [Processing 1 3; Found 1] ["iVBORw=="%string])
              (fresh_data 1)
              [("last_page", JInt 1); ("questions", JList [JInt 1])]
              (JInt 0) 0 1 bad_page RenderError
              eq_refl eq_refl eq_refl Hk eq_refl eq_refl eq_refl)).
Defined.

(** An object for an answer: its key joins the questions. *)
Lemma no_shape_validation_witness :
  json_loads object_reply object_text = Some (JDict [("a", JInt 1)])
  /\ is_list (JDict [("a", JInt 1)]) = false
  /\ fst (call_vision_model object_reply "iVBORw=="
            (say (Processing 1 1) blank)) = Ok (JDict [("a", JInt 1)])
  /\ fst (page_step object_reply 0 (fresh_data 1) blank)
     = Ok [("last_page", JInt 1); ("questions", JList [JStr "a"])].
Proof.
  split; [reflexivity|]. split; [reflexivity|].
  destruct (no_shape_validation object_reply 0 (fresh_data 1) blank
              good_page "iVBORw==" (reply object_text) (JStr object_text)
              object_text (JDict [("a", JInt 1)]) []
              eq_refl eq_refl eq_refl eq_refl eq_refl eq_refl eq_refl eq_refl)
    as [Hcall [Hdict _]].
  split; [exact Hcall|].
  rewrite (Hdict [("a", JInt 1)] eq_refl); [reflexivity | discriminate].
Defined.

End Instances.

(* ===================================================================== *)
(** * Further properties *)

(** ** Rasterizer: the image text *)

Section ImageText.
Import Base64.

Lemma digit_base64 (n : N) : base64_char (digit n) = true.
Proof.
  unfold digit.
  destruct (n <? 26)%N eqn:E1.
  { apply N.ltb_lt in E1. unfold base64_char.
    rewrite N_ascii_embedding by lia.
    replace (65 <=? 65 + n)%N with true by (symmetry; apply N.leb_le; lia).
    replace (65 + n <=? 90)%N with true by (symmetry; apply N.leb_le; lia).
    reflexivity. }
  apply N.ltb_ge in E1. destruct (n <? 52)%N eqn:E2.
  { apply N.ltb_lt in E2. unfold base64_char.
    rewrite N_ascii_embedding by lia.
    replace (97 <=? 97 + (n - 26))%N with true
      by (symmetry; apply N.leb_le; lia).
    replace (97 + (n - 26) <=? 122)%N with true
      by (symmetry; apply N.leb_le; lia).
    cbn [andb]. now rewrite orb_true_r. }
  apply N.ltb_ge in E2. destruct (n <? 62)%N eqn:E3.
  { apply N.ltb_lt in E3. unfold base64_char.
    rewrite N_ascii_embedding by lia.
    replace (48 <=? 48 + (n - 52))%N with true
      by (symmetry; apply N.leb_le; lia).
    replace (48 + (n - 52) <=? 57)%N with true
      by (symmetry; apply N.leb_le; lia).
    cbn [andb]. now rewrite !orb_true_r. }
  destruct (n =? 62)%N; reflexivity.
Qed.

Lemma b64encode_shape (n : nat) :
  forall bs : list Byte.byte,
    (List.length bs <= n)%nat ->
    String.length (b64encode bs) = (4 * ((List.length bs + 2) / 3))%nat
    /\ all_chars base64_char (b64encode bs) = true.
Proof.
  induction n as [|n IH]; intros bs Hn.
  - destruct bs; [split; reflexivity | simpl in Hn; lia].
  - destruct bs as [|a [|b [|c rest]]].
    + split; reflexivity.
    + split; [reflexivity|]. cbn [b64encode all_chars].
      unfold sextet. now rewrite !digit_base64.
    + split; [reflexivity|]. cbn [b64encode all_chars].
      unfold sextet. now rewrite !digit_base64.
    + destruct (IH rest) as [Hlen Hchars]; [simpl in Hn; lia|].
      split.
      * cbn [b64encode String.length List.length]. rewrite Hlen.
        replace (S (S (S (List.length rest))) + 2)%nat
          with (1 * 3 + (List.length rest + 2))%nat by lia.
        rewrite Nat.div_add_l by lia. lia.
      * cbn [b64encode all_chars]. unfold sextet.
        now rewrite !digit_base64, Hchars.
Qed.

(** X1.  When the page renders, [pdf_page_to_base64] returns the base64
    text of the PNG bytes: four characters for every three bytes, rounded
    up, all of them from the base64 alphabet or the padding sign; it
    returns only when both rendering calls did. *)
Theorem rasterizer_output_is_base64 (pg : page) (img : string) :
  pdf_page_to_base64 pg = Ok img ->
  exists pix bs,
    get_pixmap pg 2 2 = Ok pix
    /\ tobytes_png pix = Ok bs
    /\ String.length img = (4 * ((List.length bs + 2) / 3))%nat
    /\ all_chars base64_char img = true.
Proof.
  unfold pdf_page_to_base64.
  destruct (get_pixmap pg 2 2) as [pix|e]; [|discriminate]. cbn [rbind].
  destruct (tobytes_png pix) as [bs|e] eqn:Hb; [|discriminate].
  cbn [rbind]. intros H; injection H as <-. exists pix, bs.
  destruct (b64encode_shape (List.length bs) bs (le_n _)) as [Hl Hc].
  now repeat split.
Qed.

End ImageText.

(* ===================================================================== *)
(** ** Strings: [split] and [join] *)

Section SplitJoin.
Import PyStr PyStrFacts.

Lemma find_first_before (sep s a b : string) :
  sep <> "" -> find_first sep s = Some (a, b) -> contains sep a = false.
Proof.
  intros Hsep E. pose proof (contains_upto sep s Hsep) as H.
  unfold upto in H. now rewrite E in H.
Qed.

Lemma split_scan_nonempty (sep cur s : string) :
  sep <> "" -> split_scan sep 0 cur s <> [].
Proof.
  intros Hsep. rewrite split_scan_unfold by exact Hsep.
  destruct (find_first sep s) as [[a b]|]; discriminate.
Qed.

Lemma split_scan_join (sep : string) (n : nat) :
  sep <> "" ->
  forall s, (String.length s <= n)%nat ->
    join sep (split_scan sep 0 "" s) = s
    /\ Forall (fun p => contains sep p = false) (split_scan sep 0 "" s).
Proof.
  intros Hsep. induction n as [|n IH]; intros s Hn.
  - destruct s; [|simpl in Hn; lia].
    rewrite split_scan_unfold by exact Hsep.
    destruct (find_first sep "") as [[a b]|] eqn:E.
    + apply find_first_sound in E. destruct a; [|discriminate].
      destruct sep; [congruence | discriminate].
    + split; [reflexivity|]. constructor; [|constructor].
      now apply find_first_none.
  - rewrite split_scan_unfold by exact Hsep.
    destruct (find_first sep s) as [[a b]|] eqn:E.
    + pose proof (find_first_sound _ _ _ _ E) as Hs.
      assert (String.length b < String.length s)%nat as Hb.
      { rewrite Hs, !length_app. destruct sep; [congruence|]. simpl. lia. }
      destruct (IH b ltac:(lia)) as [Hj Hf]. split.
      * cbn [join append].
        destruct (split_scan sep 0 "" b) eqn:Eb.
        { exfalso. revert Eb. now apply split_scan_nonempty. }
        rewrite Hj. now symmetry.
      * constructor; [|exact Hf]. cbn [append].
        now apply (find_first_before sep s a b).
    + split; [reflexivity|]. constructor; [|constructor].
      now apply find_first_none.
Qed.

(** X2.  [split] with a separator that is not empty loses nothing: joining
    the pieces with the separator gives the string back, there is at least
    one piece, and no piece contains the separator. *)
Theorem split_join (sep s : string) :
  sep <> "" ->
  exists parts,
    split sep s = Ok parts
    /\ parts <> []
    /\ join sep parts = s
    /\ Forall (fun p => contains sep p = false) parts.
Proof.
  intros Hsep. exists (split_scan sep 0 "" s).
  destruct (split_scan_join sep (String.length s) Hsep s (le_n _)) as [Hj Hf].
  split; [destruct sep; [congruence | reflexivity]|].
  split; [now apply split_scan_nonempty|]. now split.
Qed.

End SplitJoin.

(* ===================================================================== *)
(** ** Model Client: the cleaned text *)

Section CleanedText.
Import PyStr PyStrFacts.

(** [t] is a contiguous piece of [s]. *)
Lemma piece_trans (t u s l r l' r' : string) :
  u = l ++ t ++ r -> s = l' ++ u ++ r' ->
  s = (l' ++ l) ++ t ++ (r ++ r').
Proof. intros -> ->. now rewrite !app_assoc. Qed.

Lemma contains_piece (sep t s l r : string) :
  s = l ++ t ++ r -> contains sep s = false -> contains sep t = false.
Proof.
  intros -> H. destruct (contains sep t) eqn:E; [|reflexivity].
  apply contains_iff in E. destruct E as [a [b ->]].
  assert (contains sep (l ++ (a ++ sep ++ b) ++ r) = true) as H'.
  { apply contains_iff. exists (l ++ a), (b ++ r). now rewrite !app_assoc. }
  congruence.
Qed.

Lemma strip_upto_piece (x : string) :
  exists l r, x = l ++ strip (upto "```" x) ++ r.
Proof.
  destruct (upto_prefix "```" x) as [r1 H1].
  destruct (strip_spec (upto "```" x)) as [l [r [H2 _]]].
  exists l, (r ++ r1). rewrite H1 at 1. rewrite H2 at 1.
  now rewrite !app_assoc.
Qed.

Lemma strip_upto_clean (x : string) :
  contains "```" (strip (upto "```" x)) = false.
Proof.
  destruct (strip_spec (upto "```" x)) as [l [r [H _]]].
  apply (contains_piece _ _ _ _ _ H), contains_upto. discriminate.
Qed.

(** X3.  Fence stripping of a string never raises: the indexing of lines 69
    and 71 cannot fail.  The text it keeps is a contiguous piece of the
    content, contains no fence any more, so that stripping it again
    changes nothing, and neither starts nor ends with white space when
    the content had a fence. *)
Theorem cleaned_text (s : string) :
  exists t,
    clean_content (JStr s) = Ok (JStr t)
    /\ (exists l r, s = l ++ t ++ r)
    /\ contains "```" t = false
    /\ clean_content (JStr t) = Ok (JStr t)
    /\ (contains "```" s = true -> trimmed t).
Proof.
  assert (forall x l0 r0, s = l0 ++ x ++ r0 ->
            clean_content (JStr s) = Ok (JStr (strip (upto "```" x))) ->
            exists t,
              clean_content (JStr s) = Ok (JStr t)
              /\ (exists l r, s = l ++ t ++ r)
              /\ contains "```" t = false
              /\ clean_content (JStr t) = Ok (JStr t)
              /\ (contains "```" s = true -> trimmed t)) as Hfenced.
  { intros x l0 r0 Hs Hc. exists (strip (upto "```" x)).
    split; [exact Hc|]. split.
    { destruct (strip_upto_piece x) as [l [r Hx]].
      exists (l0 ++ l), (r ++ r0). exact (piece_trans _ _ _ _ _ _ _ Hx Hs). }
    split; [apply strip_upto_clean|]. split.
    { apply clean_raw, strip_upto_clean. }
    intros _. now destruct (strip_spec (upto "```" x)) as [_ [_ [_ [_ [_ H]]]]]. }
  destruct (contains "```json" s) eqn:Hlab.
  - destruct (find_first_some _ _ Hlab) as [a [b E]].
    pose proof (find_first_sound _ _ _ _ E) as Hs.
    destruct (upto_prefix "```json" b) as [r1 Hb].
    apply (Hfenced (upto "```json" b) (a ++ "```json") r1).
    + rewrite Hs at 1. rewrite Hb at 1. now rewrite !app_assoc.
    + exact (clean_labeled s a b E).
  - destruct (contains "```" s) eqn:Hfen.
    + destruct (find_first_some _ _ Hfen) as [a [b E]].
      pose proof (find_first_sound _ _ _ _ E) as Hs.
      apply (Hfenced b (a ++ "```") "").
      * rewrite Hs at 1. now rewrite !app_assoc, app_nil_r.
      * exact (clean_unlabeled s a b Hlab E).
    + exists s. split; [now apply clean_raw|]. split.
      { exists "", "". now rewrite app_nil_r. }
      split; [exact Hfen|]. split; [now apply clean_raw | discriminate].
Qed.

End CleanedText.

(* ===================================================================== *)
(** ** Model Client: what it prints and what it leaves alone *)

Section ClientEffects.

Variable env : environment.



(** X5.  Content that is not a string, such as [null], is never parsed: the
    client returns the empty list and prints an error line, for a
    [TypeError] or, when a list or mapping holds a fence marker, an
    [AttributeError]. *)
Theorem non_string_content (img : string) (w : world) (j content : json) :
  post env (List.length (sent w)) img = Envelope j ->
  content_of j = Some content ->
  (forall s, content <> JStr s) ->
  exists e,
    (e = TypeError \/ e = AttributeError)
    /\ call_vision_model env img w
       = (Ok (JList []), say (ErrorCalling e) (record_sent img w)).
Proof.
  intros Ho Hc Hns. unfold call_vision_model. rewrite Ho. cbn [try_body].
  rewrite (read_envelope_content _ _ _ Hc). unfold clean_content.
  destruct content as [| | | |s|l|d]; cbn [py_in rbind];
    try (exists TypeError; split; [now left | reflexivity]).
  - now destruct (Hns s).
  - destruct (existsb (is_str "```json") l).
    { exists AttributeError. split; [now right | reflexivity]. }
    destruct (existsb (is_str "```") l).
    { exists AttributeError. split; [now right | reflexivity]. }
    exists TypeError. split; [now left | reflexivity].
  - destruct (dict_mem "```json" d).
    { exists AttributeError. split; [now right | reflexivity]. }
    destruct (dict_mem "```" d).
    { exists AttributeError. split; [now right | reflexivity]. }
    exists TypeError. split; [now left | reflexivity].
Qed.

End ClientEffects.

(* ===================================================================== *)
(** ** Loading and runs without pages *)

Section Degenerate.
Local Open Scope list_scope.

Variable env : environment.

(** X6.  Loading the checkpoint never raises, whatever the file holds; it
    writes no file and sends nothing, and prints at most one line.  The
    state it gives always has a [last_page], so that line 105 never meets a
    missing key, and it lacks [questions] only when it is a mapping taken
    from the file that lacks it. *)
Theorem load_checkpoint_total (start_page : Z) (w : world) :
  exists data w',
    load_checkpoint start_page w = (Ok data, w')
    /\ durable w' = durable w
    /\ (console w' = console w \/ exists l, console w' = console w ++ [l])
    /\ dict_mem "last_page" data = true
    /\ (dict_get "questions" data = None ->
        checkpoint_file w = Holds (JDict data)).
Proof.
  unfold load_checkpoint, durable.
  destruct (checkpoint_file w) as [|e|j] eqn:Hf.
  - eexists; eexists; split; [reflexivity|]. rewrite Hf.
    repeat split; [now left | discriminate].
  - eexists; eexists; split; [reflexivity|]. cbn. rewrite Hf.
    repeat split; [right; now eexists | discriminate].
  - destruct j as [| | | | |l|d];
      try (eexists; eexists; split; [reflexivity|]; rewrite Hf;
           repeat split; [now left | discriminate]).
    + eexists; eexists; split; [reflexivity|]. cbn. rewrite Hf.
      repeat split; [right; now eexists | discriminate].
    + destruct (dict_mem "last_page" d) eqn:Hm.
      * destruct (dict_lookup "last_page" d) as [v|e];
          [destruct (can_add_one v)|];
          (eexists; eexists; split; [reflexivity|]); cbn; rewrite Hf;
          (repeat split; [right; now eexists | exact Hm]).
      * eexists; eexists; split; [reflexivity|]. rewrite Hf.
        repeat split; [now left | discriminate].
Qed.

(** X7.  With no checkpoint file and a document that ends before the
    configured start, nothing is rendered or sent: the run prints the
    summary and leaves an empty array in the output file, in place of
    whatever it held.  The entry point, which starts at page 19, does so on
    every document of at most 18 pages. *)
Theorem nothing_to_process (start_page : Z) (w : world) :
  checkpoint_file w = Missing ->
  (total_pages env <= start_page - 1 ->
   process_pdf env start_page w
   = (Ok tt, say (Finished 0) (set_output (Holds (JList [])) w)))
  /\ (total_pages env <= 18 ->
      main env w
      = (Ok tt, say (Finished 0) (set_output (Holds (JList [])) w))).
Proof.
  intros Hf.
  assert (forall s, total_pages env <= s - 1 ->
            process_pdf env s w
            = (Ok tt, say (Finished 0) (set_output (Holds (JList [])) w)))
    as H.
  { intros s Hs.
    rewrite (process_pdf_eq env s w w (fresh_data s) (JInt (s - 1)) (s - 1));
      try reflexivity.
    - rewrite py_range_nil by lia. reflexivity.
    - unfold load_checkpoint. now rewrite Hf. }
  split; [apply H|]. intros Ht. apply (H 19). lia.
Qed.

(** X8.  Once a checkpoint records every page as done, a further run is
    harmless whatever [start_page] it is given: it sends nothing, leaves
    the checkpoint file as it is and writes the recorded questions to the
    output file again. *)
Theorem rerun_after_completion (start_page : Z) (w : world) (d : dict)
        (n : Z) (qs : list json) :
  checkpoint_file w = Holds (JDict d) ->
  dict_get "last_page" d = Some (JInt n) ->
  dict_get "questions" d = Some (JList qs) ->
  total_pages env <= n ->
  process_pdf env start_page w
  = (Ok tt,
     say (Finished (Z.of_nat (List.length qs)))
         (set_output (Holds (JList qs)) (say (Resuming (JInt n)) w))).
Proof.
  intros Hf Hl Hq Hn.
  rewrite (process_pdf_eq env start_page w (say (Resuming (JInt n)) w)
             d (JInt n) n); try assumption; try reflexivity.
  - rewrite py_range_nil by lia. unfold bind, run_pages, ret.
    apply final_save_ok, Hq.
  - unfold load_checkpoint, dict_mem, dict_lookup. now rewrite Hf, Hl.
Qed.

(** X9.  A checkpoint that records every page as done but has no
    [questions] costs the output file: the final save empties it and then
    raises [KeyError], so what the file held is lost. *)
Theorem completed_checkpoint_without_questions (start_page : Z) (w : world)
        (d : dict) (n : Z) :
  checkpoint_file w = Holds (JDict d) ->
  dict_get "last_page" d = Some (JInt n) ->
  dict_get "questions" d = None ->
  total_pages env <= n ->
  process_pdf env start_page w
  = (Raise KeyError, set_output truncated (say (Resuming (JInt n)) w)).
Proof.
  intros Hf Hl Hq Hn.
  rewrite (process_pdf_eq env start_page w (say (Resuming (JInt n)) w)
             d (JInt n) n); try assumption; try reflexivity.
  - rewrite py_range_nil by lia.
    cbv [bind run_pages ret final_save lift dict_lookup]. now rewrite Hq.
  - unfold load_checkpoint, dict_mem, dict_lookup. now rewrite Hf, Hl.
Qed.

End Degenerate.

(* ===================================================================== *)
(** ** Extraction loop: what every run keeps *)

Section Invariants.
Local Open Scope list_scope.

Variable env : environment.

(** How a page step that returns has changed the state. *)
Lemma page_step_shape (i : Z) (data data' : dict) (w w' : world) :
  page_step env i data w = (Ok data', w') ->
  exists img,
    page_image env i = Ok img
    /\ sent w' = sent w ++ [img]
    /\ (data' = dict_set "last_page" (JInt (i + 1)) data
        \/ exists qs xs,
            dict_get "questions" data = Some (JList qs)
            /\ data' = dict_set "last_page" (JInt (i + 1))
                         (dict_set "questions" (JList (qs ++ xs)) data)).
Proof.
  unfold page_image.
  cbv [page_step bind print lift ret write_checkpoint].
  destruct (load_page env i) as [pg|e]; [|discriminate]. cbn [rbind].
  destruct (pdf_page_to_base64 pg) as [img|e]; [|discriminate].
  destruct (call_vision_model_answer env img
              (say (Processing (i + 1) (total_pages env)) w))
    as [w1 [Hcall [_ [_ Hsent]]]].
  rewrite Hcall. rewrite sent_say in Hsent.
  destruct (truthy (answer env _ img)).
  - destruct (py_len (answer env _ img)) as [n|e]; [|discriminate].
    unfold dict_lookup.
    destruct (dict_get "questions" data) as [target|] eqn:Hq; [|discriminate].
    destruct target as [| | | | |qs|]; try discriminate. cbn [py_extend].
    destruct (py_iter (answer env _ img)) as [xs|e]; [|discriminate].
    cbn [rbind]. intros H; injection H as <- <-. exists img.
    split; [reflexivity|]. split; [exact Hsent|]. right. now exists qs, xs.
  - intros H; injection H as <- <-. exists img.
    split; [reflexivity|]. split; [exact Hsent|]. now left.
Qed.

Lemma dict_set_keys (k : string) (v : json) (d : dict) :
  dict_mem k d = true -> map fst (dict_set k v d) = map fst d.
Proof.
  unfold dict_mem. induction d as [|[k' v'] d IH]; cbn; [discriminate|].
  destruct (String.eqb_spec k' k).
  - intros _. cbn. now subst.
  - intros H. cbn. now rewrite IH.
Qed.

Lemma dict_mem_set (k k' : string) (v : json) (d : dict) :
  dict_mem k d = true -> dict_mem k (dict_set k' v d) = true.
Proof.
  unfold dict_mem. destruct (String.eqb_spec k k').
  - subst. now rewrite dict_get_set_eq.
  - now rewrite dict_get_set_neq.
Qed.

(** The loop sets two keys and leaves the others, and their order, alone. *)
Lemma run_pages_keys (pages : list Z) :
  forall (data data' : dict) (w w' : world),
    run_pages env pages data w = (Ok data', w') ->
    dict_mem "last_page" data = true ->
    map fst data' = map fst data
    /\ (forall k, k <> "last_page" -> k <> "questions" ->
                  dict_get k data' = dict_get k data).
Proof.
  induction pages as [|i rest IH]; intros data data' w w' Hrun Hm.
  - cbn in Hrun. injection Hrun as <- <-. now split.
  - cbn [run_pages] in Hrun. unfold bind in Hrun.
    destruct (page_step env i data w) as [[d1|e] w1] eqn:Hstep;
      [|discriminate].
    destruct (page_step_shape _ _ _ _ _ Hstep) as [img [_ [_ Hshape]]].
    assert (dict_mem "last_page" d1 = true
            /\ map fst d1 = map fst data
            /\ (forall k, k <> "last_page" -> k <> "questions" ->
                          dict_get k d1 = dict_get k data)) as [Hm1 [Hk1 Ho1]].
    { destruct Hshape as [->|[qs [xs [Hq ->]]]].
      - split; [now apply dict_mem_set|]. split; [now apply dict_set_keys|].
        intros k H1 H2. now rewrite dict_get_set_neq.
      - assert (dict_mem "questions" data = true) as Hmq
            by (unfold dict_mem; now rewrite Hq).
        split; [now apply dict_mem_set, dict_mem_set|]. split.
        + rewrite dict_set_keys by now apply dict_mem_set.
          now apply dict_set_keys.
        + intros k H1 H2. now rewrite !dict_get_set_neq. }
    destruct (IH _ _ _ _ Hrun Hm1) as [Hk Ho]. split; [congruence|].
    intros k H1 H2. now rewrite Ho, Ho1.
Qed.

(** X10.  The loop writes two keys only.  On the way from one state to a
    later one every other key of the mapping keeps its value, and no key
    is added, dropped or moved: what a resumed checkpoint carried besides
    [last_page] and [questions] is in every checkpoint written after it. *)
Theorem other_keys_are_kept (pages : list Z) (data data' : dict)
        (w w' : world) :
  run_pages env pages data w = (Ok data', w') ->
  dict_mem "last_page" data = true ->
  map fst data' = map fst data
  /\ (forall k, k <> "last_page" -> k <> "questions" ->
                dict_get k data' = dict_get k data).
Proof. apply run_pages_keys. Qed.

(** X11.  The accumulated questions only grow: whenever the loop returns,
    the questions it started from are still there, in order and in front,
    and one request has been sent for each page of the loop, never two. *)
Theorem questions_only_grow (pages : list Z) :
  forall (data data' : dict) (w w' : world) (qs : list json),
    run_pages env pages data w = (Ok data', w') ->
    dict_get "questions" data = Some (JList qs) ->
    (exists xs, dict_get "questions" data' = Some (JList (qs ++ xs)))
    /\ List.length (sent w') = (List.length (sent w) + List.length pages)%nat.
Proof.
  induction pages as [|i rest IH]; intros data data' w w' qs Hrun Hq.
  - cbn in Hrun. injection Hrun as <- <-. split; [|cbn; lia].
    exists []. now rewrite app_nil_r.
  - cbn [run_pages] in Hrun. unfold bind in Hrun.
    destruct (page_step env i data w) as [[d1|e] w1] eqn:Hstep;
      [|discriminate].
    destruct (page_step_shape _ _ _ _ _ Hstep) as [img [_ [Hsent Hshape]]].
    assert (exists xs, dict_get "questions" d1 = Some (JList (qs ++ xs)))
      as [xs Hq1].
    { destruct Hshape as [->|[qs' [xs [Hq' ->]]]].
      - exists []. now rewrite app_nil_r, dict_get_set_neq.
      - exists xs. rewrite dict_get_set_neq by discriminate.
        rewrite dict_get_set_eq. congruence. }
    destruct (IH _ _ _ _ _ Hrun Hq1) as [[xs' Hq'] Hlen]. split.
    + exists (xs ++ xs'). now rewrite app_assoc.
    + rewrite Hlen, Hsent, length_app. cbn. lia.
Qed.


End Invariants.

(* ===================================================================== *)
(** ** Extraction loop: stopping and resuming *)

Section Resuming.
Local Open Scope list_scope.

Variable env : environment.


(** After a loop over a range that is not empty, the checkpoint file holds
    the state, whose [last_page] is the end of the range. *)
Lemma run_range_last (n : nat) :
  forall (a b : Z) (data d' : dict) (w w' : world),
    Z.to_nat (b - a) = n ->
    a < b ->
    run_pages env (py_range a b) data w = (Ok d', w') ->
    dict_get "last_page" d' = Some (JInt b)
    /\ checkpoint_file w' = Holds (JDict d').
Proof.
  induction n as [|n IH]; intros a b data d' w w' Hn Hab Hrun; [lia|].
  rewrite py_range_cons in Hrun by exact Hab.
  cbn [run_pages] in Hrun. unfold bind in Hrun.
  destruct (page_step env a data w) as [[d1|e] w1] eqn:Hstep; [|discriminate].
  destruct (page_step_inv env _ _ _ _ _ Hstep) as [Hck [_ Hlast]].
  destruct (Z.lt_ge_cases (a + 1) b) as [Hlt|Hge].
  - apply (IH (a + 1) b d1 d' w1 w'); [lia | exact Hlt | exact Hrun].
  - rewrite py_range_nil in Hrun by lia. cbn in Hrun.
    injection Hrun as <- <-. replace b with (a + 1) by lia. now split.
Qed.



(** Two worlds that differ in their consoles only are told apart by no
    step of the loop. *)
Lemma page_step_durable (i : Z) (data : dict) (w1 w2 : world) :
  durable w1 = durable w2 ->
  fst (page_step env i data w1) = fst (page_step env i data w2)
  /\ durable (snd (page_step env i data w1))
     = durable (snd (page_step env i data w2)).
Proof.
  destruct w1 as [c1 o1 k1 s1], w2 as [c2 o2 k2 s2]. unfold durable. cbn.
  intros H; injection H as -> -> ->.
  cbv [page_step bind print lift ret write_checkpoint call_vision_model
       say record_sent set_checkpoint checkpoint_file output_file console
       sent is_Exception].
  destruct (load_page env i) as [pg|e]; [|now split].
  destruct (pdf_page_to_base64 pg) as [img|e]; [|now split].
  destruct (try_body (json_loads env) (post env (List.length s2) img))
    as [v|e].
  - destruct (truthy v); [|now split].
    destruct (py_len v); [|now split].
    destruct (dict_lookup "questions" data) as [target|]; [|now split].
    now destruct (py_extend target v).
  - cbn [truthy]. now split.
Qed.

Lemma run_pages_durable (pages : list Z) :
  forall (data : dict) (w1 w2 : world),
    durable w1 = durable w2 ->
    fst (run_pages env pages data w1) = fst (run_pages env pages data w2)
    /\ durable (snd (run_pages env pages data w1))
       = durable (snd (run_pages env pages data w2)).
Proof.
  induction pages as [|i rest IH]; intros data w1 w2 H.
  - now split.
  - cbn [run_pages]. unfold bind.
    destruct (page_step_durable i data w1 w2 H) as [Hf Hd].
    destruct (page_step env i data w1) as [[d1|e1] w1'],
             (page_step env i data w2) as [[d2|e2] w2'];
      cbn in Hf, Hd; try discriminate.
    + injection Hf as <-. now apply IH.
    + injection Hf as <-. now split.
Qed.

Lemma final_save_durable (data : dict) (w1 w2 : world) :
  durable w1 = durable w2 ->
  fst (final_save data w1) = fst (final_save data w2)
  /\ durable (snd (final_save data w1)) = durable (snd (final_save data w2)).
Proof.
  destruct w1 as [c1 o1 k1 s1], w2 as [c2 o2 k2 s2]. unfold durable. cbn.
  intros H; injection H as -> -> ->.
  cbv [final_save bind lift print say set_output checkpoint_file output_file
       console sent].
  destruct (dict_lookup "questions" data) as [qs|]; [|now split].
  now destruct (py_len qs).
Qed.

(** X14.  Stopping after a page and starting again changes nothing that
    lasts.  If the loop has done the pages up to [k] and the program is
    started anew on the world it left, with any [start_page], the new run
    ends as the uninterrupted one would have, the service answering the
    later requests in the same way: same result, same checkpoint file, same
    output file, same requests.  No page is sent twice and none is
    skipped. *)
Theorem resume_matches_uninterrupted (start_page a k : Z) (data d1 : dict)
        (w w1 : world) :
  run_pages env (py_range a k) data w = (Ok d1, w1) ->
  a < k <= total_pages env ->
  let whole :=
    bind (run_pages env (py_range a (total_pages env)) data) final_save w in
  let resumed := process_pdf env start_page w1 in
  fst resumed = fst whole /\ durable (snd resumed) = durable (snd whole).
Proof.
  intros Hrun Hk whole resumed.
  destruct (run_range_last _ a k data d1 w w1 eq_refl ltac:(lia) Hrun)
    as [Hlast Hck].
  assert (whole
          = bind (run_pages env (py_range k (total_pages env)) d1)
                 final_save w1) as Hwhole.
  { unfold whole. rewrite (py_range_app a k (total_pages env)) by lia.
    unfold bind at 1. rewrite run_pages_app. unfold bind at 1.
    now rewrite Hrun. }
  assert (resumed
          = bind (run_pages env (py_range k (total_pages env)) d1)
                 final_save (say (Resuming (JInt k)) w1)) as Hres.
  { unfold resumed.
    apply (process_pdf_eq env start_page w1 _ d1 (JInt k) k);
      [|exact Hlast | reflexivity].
    unfold load_checkpoint, dict_mem, dict_lookup. now rewrite Hck, Hlast. }
  rewrite Hwhole, Hres. unfold bind.
  destruct (run_pages_durable (py_range k (total_pages env)) d1
              (say (Resuming (JInt k)) w1) w1 eq_refl) as [Hf Hd].
  destruct (run_pages env (py_range k (total_pages env)) d1
              (say (Resuming (JInt k)) w1)) as [[d2|e2] w2],
           (run_pages env (py_range k (total_pages env)) d1 w1)
             as [[d3|e3] w3];
    cbn in Hf, Hd; try discriminate.
  - injection Hf as <-. now apply final_save_durable.
  - injection Hf as <-. now split.
Qed.

End Resuming.

(* ===================================================================== *)
(** ** Whole runs *)

Section WholeRuns.
Local Open Scope list_scope.

Variable env : environment.

Lemma two_key_dict (k1 k2 : string) (x y : json) (d : dict) :
  map fst d = [k1; k2] ->
  k1 <> k2 ->
  dict_get k1 d = Some x ->
  dict_get k2 d = Some y ->
  d = [(k1, x); (k2, y)].
Proof.
  destruct d as [|[a u] [|[b v] [|c d]]]; try discriminate.
  cbn. intros H Hk; injection H as -> ->.
  rewrite String.eqb_refl.
  destruct (String.eqb_spec k1 k2); [congruence|].
  rewrite String.eqb_refl. congruence.
Qed.

(** X15.  A legacy checkpoint keeps its questions in front and every page
    from the configured start is sent again, however far the legacy data
    had reached: when the pages render and their answers can be added, the
    output file ends up holding the legacy questions followed by what the
    pages added. *)
Theorem legacy_run_appends (start_page : Z) (w : world) (l : list json)
        (ys : list (string * list json)) :
  checkpoint_file w = Holds (JList l) ->
  yields env (List.length (sent w))
         (py_range (start_page - 1) (total_pages env)) = Ok ys ->
  exists w',
    process_pdf env start_page w = (Ok tt, w')
    /\ output_file w' = Holds (JList (l ++ List.concat (map snd ys)))
    /\ sent w' = sent w ++ map fst ys
    /\ List.length ys = Z.to_nat (total_pages env - (start_page - 1)).
Proof.
  intros Hf Hy.
  set (data := [("last_page", JInt (start_page - 1)); ("questions", JList l)]).
  rewrite (process_pdf_eq env start_page w (say LegacyFound w) data
             (JInt (start_page - 1)) (start_page - 1));
    [| unfold load_checkpoint; now rewrite Hf | reflexivity | reflexivity].
  destruct (run_range_ok env _ (start_page - 1) (total_pages env) data
              (say LegacyFound w) l ys eq_refl Hy eq_refl)
    as [data' [w1 [Hrun [Hq [_ [_ [_ [Hsent [Hout Hlen]]]]]]]]].
  unfold bind. rewrite Hrun, (final_save_ok _ _ _ Hq).
  eexists. split; [reflexivity|]. cbn. now repeat split.
Qed.

(** X16.  A run from scratch over a document with pages to process, all of
    which render and give answers that can be added, ends normally with the
    answers of the pages, in page order, in the output file, and with a
    checkpoint file of exactly two fields: [last_page], equal to the number
    of pages, and [questions], equal to the output. *)
Theorem fresh_run (start_page : Z) (w : world)
        (ys : list (string * list json)) :
  checkpoint_file w = Missing ->
  start_page - 1 < total_pages env ->
  yields env (List.length (sent w))
         (py_range (start_page - 1) (total_pages env)) = Ok ys ->
  exists w',
    process_pdf env start_page w = (Ok tt, w')
    /\ output_file w' = Holds (JList (List.concat (map snd ys)))
    /\ checkpoint_file w'
       = Holds (JDict [("last_page", JInt (total_pages env));
                       ("questions", JList (List.concat (map snd ys)))])
    /\ sent w' = sent w ++ map fst ys.
Proof.
  intros Hf Hlt Hy.
  rewrite (process_pdf_eq env start_page w w (fresh_data start_page)
             (JInt (start_page - 1)) (start_page - 1));
    [| unfold load_checkpoint; now rewrite Hf | reflexivity | reflexivity].
  destruct (run_range_ok env _ (start_page - 1) (total_pages env)
              (fresh_data start_page) w [] ys eq_refl Hy eq_refl)
    as [data' [w1 [Hrun [Hq [Hlast [_ [_ [Hsent [Hout _]]]]]]]]].
  destruct (Hlast Hlt) as [Hl Hck].
  destruct (run_pages_keys env _ _ _ _ _ Hrun eq_refl) as [Hkeys _].
  assert (data' = [("last_page", JInt (total_pages env));
                   ("questions", JList (List.concat (map snd ys)))])
    as Hdata.
  { apply two_key_dict; [exact Hkeys | discriminate | exact Hl | exact Hq]. }
  unfold bind. rewrite Hrun, (final_save_ok _ _ _ Hq).
  eexists. split; [reflexivity|]. cbn. rewrite Hck, Hdata.
  now repeat split.
Qed.

End WholeRuns.

(* ===================================================================== *)
(** ** The further properties on the samples *)

Section MoreInstances.
Local Open Scope list_scope.
Import Sample.

Lemma rasterizer_output_is_base64_witness :
  pdf_page_to_base64 good_page = Ok "iVBORw=="%string
  /\ exists pix bs,
      get_pixmap good_page 2 2 = Ok pix
      /\ tobytes_png pix = Ok bs
      /\ String.length "iVBORw==" = (4 * ((List.length bs + 2) / 3))%nat
      /\ all_chars base64_char "iVBORw==" = true.
Proof.
  split; [reflexivity|].
  apply (rasterizer_output_is_base64 good_page "iVBORw=="). reflexivity.
Defined.

Lemma split_join_witness :
  "```"%string <> ""%string
  /\ exists parts,
      PyStr.split "```" "a```b````" = Ok parts
      /\ parts <> []
      /\ join "```" parts = "a```b````"%string
      /\ Forall (fun p => PyStr.contains "```" p = false) parts.
Proof.
  split; [discriminate|]. apply split_join. discriminate.
Defined.

Lemma cleaned_text_witness :
  PyStr.contains "```" fenced = true
  /\ exists t,
      clean_content (JStr fenced) = Ok (JStr t)
      /\ PyStr.contains "```" t = false
      /\ PyStr.trimmed t.
Proof.
  split; [reflexivity|].
  destruct (cleaned_text fenced) as [t [Hc [_ [Hf [_ Ht]]]]].
  exists t. split; [exact Hc|]. split; [exact Hf|]. apply Ht. reflexivity.
Defined.


Lemma non_string_content_witness :
  content_of (JDict [("choices",
                      JList [JDict [("message",
                                     JDict [("content", JNull)])]])])
  = Some JNull
  /\ exists e,
      (e = TypeError \/ e = AttributeError)
      /\ call_vision_model null_reply "iVBORw==" blank
         = (Ok (JList []),
            say (ErrorCalling e) (record_sent "iVBORw==" blank)).
Proof.
  split; [reflexivity|].
  apply (non_string_content null_reply "iVBORw==" blank
           (JDict [("choices",
                    JList [JDict [("message",
                                   JDict [("content", JNull)])]])])
           JNull);
    [reflexivity | reflexivity | discriminate].
Defined.

Lemma load_checkpoint_total_witness :
  exists data w',
    load_checkpoint 19 (with_checkpoint (JDict [("last_page", JInt 7)]))
    = (Ok data, w')
    /\ dict_mem "last_page" data = true
    /\ dict_get "questions" data = None
    /\ checkpoint_file (with_checkpoint (JDict [("last_page", JInt 7)]))
       = Holds (JDict data).
Proof.
  destruct (load_checkpoint_total 19
              (with_checkpoint (JDict [("last_page", JInt 7)])))
    as [data [w' [Hload [_ [_ [Hm Hq]]]]]].
  exists data, w'. split; [exact Hload|]. split; [exact Hm|].
  assert (dict_get "questions" data = None) as Hnone.
  { cbn in Hload. injection Hload as <- _. reflexivity. }
  split; [exact Hnone | exact (Hq Hnone)].
Defined.

Lemma nothing_to_process_witness :
  total_pages five_pages <= 18
  /\ main five_pages (mkWorld Missing (Holds (JStr "old")) [] [])
     = (Ok tt, mkWorld Missing (Holds (JList [])) [Finished 0] []).
Proof.
  split; [cbn; lia|].
  apply (proj2 (nothing_to_process five_pages 19
                  (mkWorld Missing (Holds (JStr "old")) [] []) eq_refl)).
  cbn. lia.
Defined.

Lemma rerun_after_completion_witness :
  let d := [("last_page", JInt 5); ("questions", JList [JInt 1])] in
  total_pages five_pages <= 5
  /\ process_pdf five_pages 19 (with_checkpoint (JDict d))
     = (Ok tt,
        mkWorld (Holds (JDict d)) (Holds (JList [JInt 1]))
                [Resuming (JInt 5); Finished 1] []).
Proof.
  intros d. split; [cbn; lia|].
  apply (rerun_after_completion five_pages 19 (with_checkpoint (JDict d))
           d 5 [JInt 1]);
    [reflexivity | reflexivity | reflexivity | cbn; lia].
Defined.

Lemma completed_checkpoint_without_questions_witness :
  let w := mkWorld (Holds (JDict [("last_page", JInt 7)]))
                   (Holds (JList [JInt 1])) [] [] in
  total_pages five_pages <= 7
  /\ process_pdf five_pages 19 w
     = (Raise KeyError,
        mkWorld (Holds (JDict [("last_page", JInt 7)])) truncated
                [Resuming (JInt 7)] []).
Proof.
  intros w. split; [cbn; lia|].
  apply (completed_checkpoint_without_questions five_pages 19 w
           [("last_page", JInt 7)] 7);
    [reflexivity | reflexivity | reflexivity | cbn; lia].
Defined.

Lemma other_keys_are_kept_witness :
  exists data' w',
    run_pages five_pages (py_range 0 2) tagged blank = (Ok data', w')
    /\ map fst data' = ["model"; "last_page"; "questions"]%string
    /\ dict_get "model" data' = Some (JStr "m").
Proof.
  destruct (run_pages five_pages (py_range 0 2) tagged blank)
    as [[data'|e] w'] eqn:H;
    [|vm_compute in H; discriminate H].
  destruct (other_keys_are_kept five_pages (py_range 0 2) tagged data'
              blank w' H eq_refl) as [Hk Ho].
  exists data', w'. split; [reflexivity|]. split; [exact Hk|].
  rewrite Ho; [reflexivity | discriminate | discriminate].
Defined.

Lemma questions_only_grow_witness :
  exists data' w' xs,
    run_pages five_pages (py_range 0 2) tagged blank = (Ok data', w')
    /\ dict_get "questions" data' = Some (JList ([JInt 7] ++ xs))
    /\ List.length (sent w') = 2%nat.
Proof.
  destruct (run_pages five_pages (py_range 0 2) tagged blank)
    as [[data'|e] w'] eqn:H;
    [|vm_compute in H; discriminate H].
  destruct (questions_only_grow five_pages (py_range 0 2) tagged data'
              blank w' [JInt 7] H eq_refl) as [[xs Hq] Hlen].
  exists data', w', xs. split; [reflexivity|]. split; [exact Hq | exact Hlen].
Defined.



Lemma resume_matches_uninterrupted_witness :
  exists d1 w1,
    run_pages five_pages (py_range 0 2) (fresh_data 1) blank = (Ok d1, w1)
    /\ 0 < 2 <= total_pages five_pages
    /\ fst (process_pdf five_pages 19 w1)
       = fst (bind (run_pages five_pages
                              (py_range 0 (total_pages five_pages))
                              (fresh_data 1)) final_save blank)
    /\ durable (snd (process_pdf five_pages 19 w1))
       = durable (snd (bind (run_pages five_pages
                                       (py_range 0 (total_pages five_pages))
                                       (fresh_data 1)) final_save blank)).
Proof.
  destruct (run_pages five_pages (py_range 0 2) (fresh_data 1) blank)
    as [[d1|e] w1] eqn:H;
    [|vm_compute in H; discriminate H].
  assert (0 < 2 <= total_pages five_pages) as Hk by (cbn; lia).
  exists d1, w1. split; [reflexivity|]. split; [exact Hk|].
  exact (resume_matches_uninterrupted five_pages 19 0 2 (fresh_data 1) d1
           blank w1 H Hk).
Defined.

Lemma legacy_run_appends_witness :
  let two := ("iVBORw=="%string, [JInt 1; JInt 2]) in
  let ys := [two; two; ("iVBORw=="%string, []); two; two] in
  yields five_pages 0 (py_range (1 - 1) (total_pages five_pages)) = Ok ys
  /\ exists w',
      process_pdf five_pages 1 (with_checkpoint (JList [JInt 9])) = (Ok tt, w')
      /\ output_file w' = Holds (JList ([JInt 9] ++ List.concat (map snd ys))).
Proof.
  intros two ys. split; [reflexivity|].
  destruct (legacy_run_appends five_pages 1 (with_checkpoint (JList [JInt 9]))
              [JInt 9] ys eq_refl eq_refl) as [w' [Hrun [Hout _]]].
  exists w'. split; [exact Hrun | exact Hout].
Defined.

Lemma fresh_run_witness :
  let two := ("iVBORw=="%string, [JInt 1; JInt 2]) in
  let ys := [two; two; ("iVBORw=="%string, []); two; two] in
  1 - 1 < total_pages five_pages
  /\ yields five_pages 0 (py_range (1 - 1) (total_pages five_pages)) = Ok ys
  /\ exists w',
      process_pdf five_pages 1 blank = (Ok tt, w')
      /\ checkpoint_file w'
         = Holds (JDict [("last_page", JInt 5);
                         ("questions", JList (List.concat (map snd ys)))]).
Proof.
  intros two ys. split; [reflexivity|]. split; [reflexivity|].
  destruct (fresh_run five_pages 1 blank ys eq_refl eq_refl eq_refl)
    as [w' [Hrun [_ [Hck _]]]].
  exists w'. split; [exact Hrun | exact Hck].
Defined.

End MoreInstances.
